(** * The publisher's publish and validate commands

    A shallow embedding of [cmd/publisher/commands/publish.go] and
    [cmd/publisher/commands/validate.go]: the two commands, the two registry
    calls they make and the routine that turns a validation result into
    diagnostic text.  Standard output and the HTTP requests sent are kept in
    an explicit state; the file system, the JSON codec and the registry are
    read from a [World]. *)

From Stdlib Require Import ZArith Lia.
From stdpp Require Import base strings gmap list pretty.

Local Open Scope Z_scope.

(** ** Strings as the [strings] package sees them *)

(** [strings.HasPrefix(s, prefix)]:
    [len(s) >= len(prefix) && s[:len(prefix)] == prefix], byte by byte. *)
Fixpoint HasPrefix (s prefix : string) {struct prefix} : bool :=
  match prefix, s with
  | EmptyString, _ => true
  | String _ _, EmptyString => false
  | String b prefix', String a s' => if Ascii.eqb a b then HasPrefix s' prefix' else false
  end.

(** [strings.HasSuffix(s, suffix)]:
    [len(s) >= len(suffix) && s[len(s)-len(suffix):] == suffix]. *)
Definition HasSuffix (s suffix : string) : bool :=
  (String.length suffix <=? String.length s)%nat
  && String.eqb
       (String.substring (String.length s - String.length suffix)
                         (String.length suffix) s)
       suffix.

(** [strings.Contains(s, substr)]: [substr] starts at some index of [s]. *)
Fixpoint Contains (s substr : string) : bool :=
  HasPrefix s substr
  || match s with
     | EmptyString => false
     | String _ s' => Contains s' substr
     end.

(** The [%d] verb of [fmt] on an [int]. *)
Definition itoa (n : Z) : string := pretty n.

(** ** Errors *)

(** The error values the commands build or receive: [errors.New] and
    [fmt.Errorf] without [%w] give an [errorString]; [fmt.Errorf] with [%w]
    gives a [wrapError] holding the whole text and the cause; [foreignError]
    stands for the errors of [os], [encoding/json], [net/http] and [io],
    with the one property the commands test, [os.IsNotExist]. *)
Inductive error : Type :=
| errorString (s : string)
| wrapError (msg : string) (err : error)
| foreignError (notExist : bool) (text : string).

Definition Error (e : error) : string :=
  match e with
  | errorString s => s
  | wrapError msg _ => msg
  | foreignError _ text => text
  end.

Definition Unwrap (e : error) : option error :=
  match e with
  | wrapError _ err => Some err
  | _ => None
  end.

(** [errors.New(text)]. *)
Definition errors_New (text : string) : error := errorString text.

(** [fmt.Errorf(prefix + "%w", err)]. *)
Definition Errorf_w (prefix : string) (err : error) : error :=
  wrapError (prefix +:+ Error err) err.

(** [os.IsNotExist(err)]; it does not look through wrapped errors. *)
Definition os_IsNotExist (err : error) : bool :=
  match err with
  | foreignError notExist _ => notExist
  | _ => false
  end.

(** A Go result pair [(value, err)]. *)
Inductive result (A : Type) : Type :=
| Ok (a : A)
| Err (err : error).
Arguments Ok {A} a.
Arguments Err {A} err.

(** ** Data *)

(** [apiv0.ServerJSON], the fields the commands read. *)
Record ServerJSON := {
  Schema : string;
  Name : string;
  Description : string;
  Version : string;
}.

(** [apiv0.ServerResponse]. *)
Record ServerResponse := { Server : ServerJSON }.

(** [validators.ValidationIssue]; [Type] and [Severity] are string types. *)
Record ValidationIssue := {
  Type_ : string;
  Path : string;
  Message : string;
  Severity : string;
  Reference : string;
}.

(** [validators.ValidationResult]. *)
Record ValidationResult := {
  Valid : bool;
  Issues : list ValidationIssue;
}.

(** An [http.Request] as the commands build it. *)
Record Request := {
  Method : string;
  URL : string;
  Header : list (string * string);
  Body : string;
}.

(** What [client.Do] followed by [io.ReadAll(resp.Body)] gives: no response
    at all, or a status code with the body (or the error of reading it). *)
Inductive RoundTrip : Type :=
| TransportError (err : error)
| Response (StatusCode : Z) (body : result string).

Definition StatusOK : Z := 200.
Definition StatusCreated : Z := 201.
Definition StatusUnprocessableEntity : Z := 422.

(** ** The world outside the commands *)

Record World := {
  (** [os.ReadFile] *)
  os_ReadFile : string -> result string;
  (** [os.UserHomeDir] *)
  os_UserHomeDir : result string;
  (** [filepath.Join] of two elements *)
  filepath_Join : string -> string -> string;
  (** [json.Unmarshal] into an [apiv0.ServerJSON] *)
  Unmarshal_ServerJSON : string -> result ServerJSON;
  (** [json.Marshal] of an [apiv0.ServerJSON] *)
  Marshal_ServerJSON : ServerJSON -> result string;
  (** [json.Unmarshal] into a [map[string]string] *)
  Unmarshal_tokenInfo : string -> result (gmap string string);
  (** [json.Unmarshal] into an [apiv0.ServerResponse] *)
  Unmarshal_ServerResponse : string -> result ServerResponse;
  (** [json.Unmarshal] into a [validators.ValidationResult] *)
  Unmarshal_ValidationResult : string -> result ValidationResult;
  (** the URL check of [http.NewRequestWithContext]: [Some err] when the
      URL does not parse *)
  url_Parse : string -> option error;
  (** the registry: its answer to a request (a command sends at most one
      request to each endpoint, so within a run the answers are a function
      of the request) *)
  http_Do : Request -> RoundTrip;
}.

(** ** State: standard output and the requests sent *)

Record State := {
  stdout : list string;
  requests : list Request;
}.

Definition M (A : Type) : Type := State -> A * State.

Definition ret {A} (a : A) : M A := fun st => (a, st).

Definition bind {A B} (m : M A) (k : A -> M B) : M B :=
  fun st => let '(a, st') := m st in k a st'.

Declare Scope go_scope.
Delimit Scope go_scope with go.
Notation "'let*' x ':=' m 'in' k" := (bind m (fun x => k))
  (at level 10, x pattern, m at level 100, k at level 200) : go_scope.
Notation "m ';;' k" := (bind m (fun _ => k))
  (at level 100, k at level 200, right associativity) : go_scope.
Local Open Scope go_scope.

(** [fmt.Fprintf(os.Stdout, ...)] with the text already formatted. *)
Definition Fprintf (text : string) : M unit :=
  fun st => (tt, {| stdout := stdout st ++ [text]; requests := requests st |}).

(** The line feed that ends a printed line. *)
Definition LF : string := String (Ascii.ascii_of_nat 10) EmptyString.

(** [fmt.Fprintln(os.Stdout, text)]; [Fprintln ""] is [fmt.Fprintln(os.Stdout)]. *)
Definition Fprintln (text : string) : M unit := Fprintf (text +:+ LF).

(** [client.Do(req)] and the read of the response body: one network call. *)
Definition client_Do (w : World) (req : Request) : M RoundTrip :=
  fun st => (http_Do w req,
             {| stdout := stdout st; requests := requests st ++ [req] |}).

(** ** A mock registry, after [testutil_test.go] *)

Module Mock.

Definition DefaultRegistryURL : string := "https://registry.modelcontextprotocol.io".
Definition TokenFileName : string := ".mcp_publisher_token".
Definition CurrentSchemaURL : string :=
  "https://static.modelcontextprotocol.io/schemas/2025-12-11/server.schema.json".
Definition SeverityWarning : string := "warning".

Definition serverURL : string := "http://127.0.0.1:8080".
Definition serverData : string := "{server.json}".
Definition tokenData : string := "{token}".

Definition serverJSON : ServerJSON :=
  {| Schema := "https://static.modelcontextprotocol.io/schemas/2025-07-09/server.schema.json";
     Name := "com.example/test-server";
     Description := "A test server";
     Version := "1.0.0" |}.

Definition noSuchFile (path : string) : error :=
  foreignError true ("open " +:+ path +:+ ": no such file or directory").

Definition syntaxError : error :=
  foreignError false "invalid character 'i' looking for beginning of object key string".

(** [SetupTestToken]: the token file points at the mock server. *)
Definition testToken : gmap string string :=
  <["token" := "test-token"]> (<["registry" := serverURL]> ∅).

(** The world of a test: a descriptor in the working directory, a token
    file that reads as [tokenFile] and decodes as [tokenInfo], and a server
    with one handler per endpoint; [validation] is the decoded body of the
    validate handler. *)
Definition world (tokenFile : result string) (tokenInfo : result (gmap string string))
    (publishHandler validateHandler : RoundTrip)
    (validation : result ValidationResult) : World :=
  {| os_ReadFile := fun path =>
       if String.eqb path "server.json" then Ok serverData
       else if String.eqb path "/home/user/.mcp_publisher_token" then tokenFile
       else Err (noSuchFile path);
     os_UserHomeDir := Ok "/home/user";
     filepath_Join := fun dir name => dir +:+ "/" +:+ name;
     Unmarshal_ServerJSON := fun data =>
       if String.eqb data serverData then Ok serverJSON else Err syntaxError;
     Marshal_ServerJSON := fun _ => Ok serverData;
     Unmarshal_tokenInfo := fun _ => tokenInfo;
     Unmarshal_ServerResponse := fun _ => Ok {| Server := serverJSON |};
     Unmarshal_ValidationResult := fun _ => validation;
     url_Parse := fun _ => None;
     http_Do := fun req =>
       if HasSuffix (URL req) "/v0/publish" then publishHandler
       else if HasSuffix (URL req) "/v0/validate" then validateHandler
       else Response 404 (Ok "404 page not found") |}.

Definition unprocessable : RoundTrip :=
  Response 422 (Ok "{message: Failed to publish server, invalid schema: call /validate for details}").

Definition unauthorized : RoundTrip :=
  Response 401 (Ok "{message: Unauthorized}").

Definition ok : RoundTrip := Response 200 (Ok "{validation}").

(** The issues of the tests. *)
Definition deprecatedIssue : ValidationIssue :=
  {| Type_ := "semantic"; Path := "schema";
     Message := "schema version 2025-07-09 is not the current version";
     Severity := "warning"; Reference := "schema-version-deprecated" |}.

Definition versionRangeIssue : ValidationIssue :=
  {| Type_ := "semantic"; Path := "version";
     Message := "version must be a specific version, not a range";
     Severity := "error"; Reference := "semantic-version-range" |}.

Definition nameRequiredIssue : ValidationIssue :=
  {| Type_ := "schema"; Path := "name";
     Message := "name is required";
     Severity := "error"; Reference := "schema-field-required" |}.

Definition extractionIssue : ValidationIssue :=
  {| Type_ := "schema"; Path := "schema";
     Message := "failed to extract schema version from URL";
     Severity := "error"; Reference := "schema-version-extraction-error" |}.

Definition initial : State := {| stdout := []; requests := [] |}.

(** A test with a token file whose publish handler answers 422. *)
Definition rejected (validation : result ValidationResult) : World :=
  world (Ok tokenData) (Ok testToken) unprocessable ok validation.

(** A test with a token file whose publish handler answers 401. *)
Definition refused : World :=
  world (Ok tokenData) (Ok testToken) unauthorized ok (Ok {| Valid := true; Issues := [] |}).

(** A test without token file. *)
Definition noToken : World :=
  world (Err (noSuchFile "/home/user/.mcp_publisher_token")) (Ok testToken)
        unprocessable ok (Ok {| Valid := true; Issues := [] |}).

(** A test whose token file records no registry. *)
Definition noRegistry : World :=
  world (Ok tokenData) (Ok (<["token" := "test-token"]> ∅)) unprocessable ok
        (Ok {| Valid := true; Issues := [] |}).

(** A validate handler that answers 500. *)
Definition validateDown : World :=
  world (Ok tokenData) (Ok testToken) unprocessable
        (Response 500 (Ok "internal error")) (Ok {| Valid := true; Issues := [] |}).

(** A test with a token file whose publish handler answers 201. *)
Definition accepted : World :=
  world (Ok tokenData) (Ok testToken) (Response 201 (Ok "{server}")) ok
        (Ok {| Valid := true; Issues := [] |}).

(** A standalone validation answered with [validation]. *)
Definition validated (validation : result ValidationResult) : World :=
  world (Ok tokenData) (Ok testToken) unprocessable ok validation.

(** A test in a directory without descriptor. *)
Definition noServerFile : World :=
  {| os_ReadFile := fun path => Err (noSuchFile path);
     os_UserHomeDir := Ok "/home/user";
     filepath_Join := fun dir name => dir +:+ "/" +:+ name;
     Unmarshal_ServerJSON := fun _ => Ok serverJSON;
     Marshal_ServerJSON := fun _ => Ok serverData;
     Unmarshal_tokenInfo := fun _ => Ok testToken;
     Unmarshal_ServerResponse := fun _ => Ok {| Server := serverJSON |};
     Unmarshal_ValidationResult := fun _ => Ok {| Valid := true; Issues := [] |};
     url_Parse := fun _ => None;
     http_Do := fun _ => ok |}.



End Mock.

Section Commands.

(** Constants of the repository declared outside the files modelled here:
    [DefaultRegistryURL] and [TokenFileName] of the [commands] package,
    [model.CurrentSchemaURL] and [validators.ValidationIssueSeverityWarning]. *)
Variable DefaultRegistryURL : string.
Variable TokenFileName : string.
Variable CurrentSchemaURL : string.
Variable ValidationIssueSeverityWarning : string.

(** ** validate.go *)

Definition migrationURL : string :=
  "https://github.com/modelcontextprotocol/registry/blob/main/docs/reference/server-json/CHANGELOG.md".
Definition checklistURL : string :=
  migrationURL +:+ "#migration-checklist-for-publishers".

(** The loop of [printSchemaValidationErrors] over [result.Issues]: the
    first issue whose reference is one of the three cases of the [switch]
    ends the function; the others are passed over. *)
Fixpoint printSchemaValidationErrors_range
    (issues : list ValidationIssue) (serverJSON : ServerJSON) : M string :=
  match issues with
  | [] => ret ""
  | issue :: rest =>
    if String.eqb (Reference issue) "schema-field-required" then
      Fprintf ("$schema field is required." +:+ LF);;
      Fprintln "";;
      Fprintf ("Expected current schema: " +:+ CurrentSchemaURL +:+ LF);;
      Fprintln "";;
      Fprintln "Run 'mcp-publisher init' to create a new server.json with the correct schema, or update your existing server.json file.";;
      Fprintln "";;
      Fprintf ("📋 Migration checklist: " +:+ checklistURL +:+ LF);;
      Fprintf ("📖 Full changelog with examples: " +:+ migrationURL +:+ LF);;
      Fprintln "";;
      ret ("$schema field is required. Expected current schema: " +:+ CurrentSchemaURL
           +:+ ". 📋 Migration checklist: " +:+ checklistURL
           +:+ " 📖 Full changelog with examples: " +:+ migrationURL)
    else if String.eqb (Reference issue) "schema-version-deprecated" then
      (if String.eqb (Severity issue) ValidationIssueSeverityWarning
       then Fprintf ("⚠️  Deprecated schema detected: " +:+ Schema serverJSON +:+ LF)
       else Fprintf ("deprecated schema detected: " +:+ Schema serverJSON +:+ "." +:+ LF));;
      Fprintln "";;
      Fprintf ("Expected current schema: " +:+ CurrentSchemaURL +:+ LF);;
      Fprintln "";;
      Fprintln "Migrate to the current schema format for new servers.";;
      Fprintln "";;
      Fprintf ("📋 Migration checklist: " +:+ checklistURL +:+ LF);;
      Fprintf ("📖 Full changelog with examples: " +:+ migrationURL +:+ LF);;
      Fprintln "";;
      ret (Message issue +:+ ". deprecated schema detected: " +:+ Schema serverJSON
           +:+ ". Expected current schema: " +:+ CurrentSchemaURL
           +:+ ". Migrate to the current schema format for new servers. 📋 Migration checklist: "
           +:+ checklistURL
           +:+ " 📖 Full changelog with examples: " +:+ migrationURL)
    else if String.eqb (Reference issue) "schema-version-extraction-error" then
      ret (Message issue +:+ ". 📋 Migration checklist: " +:+ checklistURL
           +:+ " 📖 Full changelog with examples: " +:+ migrationURL)
    else printSchemaValidationErrors_range rest serverJSON
  end.

Definition printSchemaValidationErrors
    (result : ValidationResult) (serverJSON : ServerJSON) : M string :=
  printSchemaValidationErrors_range (Issues result) serverJSON.

(** The second loop of [printValidationIssues], with its counter
    [issueNum]; the counter is an [int] that a list of issues cannot make
    wrap around, so it is an unbounded integer here. *)
Fixpoint printValidationIssues_range
    (issues : list ValidationIssue) (issueNum : Z) : M unit :=
  match issues with
  | [] => ret tt
  | issue :: rest =>
    if String.eqb (Reference issue) "schema-field-required"
       || String.eqb (Reference issue) "schema-version-deprecated"
    then printValidationIssues_range rest issueNum
    else
      Fprintf (itoa issueNum +:+ ". [" +:+ Severity issue +:+ "] " +:+ Path issue
               +:+ " (" +:+ Type_ issue +:+ ")" +:+ LF);;
      Fprintf ("   " +:+ Message issue +:+ LF);;
      (if negb (String.eqb (Reference issue) "")
       then Fprintf ("   Reference: " +:+ Reference issue +:+ LF)
       else ret tt);;
      Fprintln "";;
      printValidationIssues_range rest (issueNum + 1)
  end.

Definition printValidationIssues
    (result : ValidationResult) (serverJSON : ServerJSON) : M string :=
  let* formattedErrorMsg := printSchemaValidationErrors result serverJSON in
  if Valid result then ret formattedErrorMsg
  else
    Fprintf ("❌ Validation failed with " +:+ itoa (Z.of_nat (length (Issues result)))
             +:+ " issue(s):" +:+ LF);;
    Fprintln "";;
    printValidationIssues_range (Issues result) 1;;
    ret formattedErrorMsg.

(** [validateViaAPI]: the /validate endpoint of the registry. *)
Definition validateViaAPI (w : World) (registryURL serverData : string)
  : M (result ValidationResult) :=
  match Unmarshal_ServerJSON w serverData with
  | Err err => ret (Err (Errorf_w "error parsing server.json file: " err))
  | Ok serverJSON =>
  match Marshal_ServerJSON w serverJSON with
  | Err err => ret (Err (Errorf_w "error serializing request: " err))
  | Ok jsonData =>
  let registryURL :=
    if negb (HasSuffix registryURL "/") then registryURL +:+ "/" else registryURL in
  let validateURL := registryURL +:+ "v0/validate" in
  match url_Parse w validateURL with
  | Some err => ret (Err (Errorf_w "error creating request: " err))
  | None =>
  let req := {| Method := "POST"; URL := validateURL;
                Header := [("Content-Type", "application/json")];
                Body := jsonData |} in
  let* resp := client_Do w req in
  match resp with
  | TransportError err => ret (Err (Errorf_w "error sending request: " err))
  | Response _ (Err err) => ret (Err (Errorf_w "error reading response: " err))
  | Response StatusCode (Ok body) =>
    if negb (StatusCode =? StatusOK) then
      ret (Err (errorString ("server returned status " +:+ itoa StatusCode
                             +:+ ": " +:+ body)))
    else
      match Unmarshal_ValidationResult w body with
      | Err err => ret (Err (Errorf_w "error parsing response: " err))
      | Ok result => ret (Ok result)
      end
  end end end end.

(** The argument loop of [ValidateCommand]: [None] when [--help] or [-h] is
    met (the usage text is printed and the command returns), otherwise the
    file name left in [serverFile]. *)
Fixpoint ValidateCommand_args (args : list string) (serverFile : string)
  : option string :=
  match args with
  | [] => Some serverFile
  | arg :: rest =>
    if String.eqb arg "--help" || String.eqb arg "-h" then None
    else if negb (HasPrefix arg "-") then ValidateCommand_args rest arg
    else ValidateCommand_args rest serverFile
  end.

(** Lines 171-191 of [ValidateCommand]: what follows the choice of
    [registryURL]. *)
Definition ValidateCommand_run (w : World)
    (registryURL serverData : string) (serverJSON : ServerJSON) : M (option error) :=
  Fprintf ("Validating against " +:+ registryURL +:+ "..." +:+ LF);;
  let* r := validateViaAPI w registryURL serverData in
  match r with
  | Err err => ret (Some (Errorf_w "validation failed: " err))
  | Ok result =>
    let* formattedErrorMsg := printValidationIssues result serverJSON in
    if Valid result then
      Fprintln "✅ server.json is valid";;
      ret None
    else if negb (String.eqb formattedErrorMsg "") then
      ret (Some (errorString formattedErrorMsg))
    else ret (Some (errorString "validation failed"))
  end.

(** [ValidateCommand], lines 116-169, then [ValidateCommand_run]. *)
Definition ValidateCommand (w : World) (args : list string) : M (option error) :=
  match ValidateCommand_args args "server.json" with
  | None =>
    Fprintln "Usage: mcp-publisher validate [file]";;
    Fprintln "";;
    Fprintln "Validate a server.json file without publishing.";;
    Fprintln "";;
    Fprintln "Arguments:";;
    Fprintln "  file    Path to server.json file (default: ./server.json)";;
    Fprintln "";;
    Fprintln "The validate command performs exhaustive validation, reporting all issues at once.";;
    Fprintln "It validates JSON syntax, schema compliance, and semantic rules.";;
    ret None
  | Some serverFile =>
  match os_ReadFile w serverFile with
  | Err err =>
    if os_IsNotExist err
    then ret (Some (errorString (serverFile +:+ " not found, please check the file path")))
    else ret (Some (Errorf_w ("failed to read " +:+ serverFile +:+ ": ") err))
  | Ok serverData =>
  match Unmarshal_ServerJSON w serverData with
  | Err err => ret (Some (Errorf_w "invalid JSON: " err))
  | Ok serverJSON =>
  match os_UserHomeDir w with
  | Err err => ret (Some (Errorf_w "failed to get home directory: " err))
  | Ok homeDir =>
  let tokenPath := filepath_Join w homeDir TokenFileName in
  let registryURL :=
    match os_ReadFile w tokenPath with
    | Ok tokenData =>
      match Unmarshal_tokenInfo w tokenData with
      | Ok tokenInfo =>
        let url := default "" (tokenInfo !! "registry") in
        if negb (String.eqb url "") then url else DefaultRegistryURL
      | Err _ => DefaultRegistryURL
      end
    | Err _ => DefaultRegistryURL
    end in
  ValidateCommand_run w registryURL serverData serverJSON
  end end end end.

(** ** publish.go *)

Definition publishToRegistry (w : World) (registryURL serverData token : string)
  : M (option ServerResponse * Z * option error) :=
  match Unmarshal_ServerJSON w serverData with
  | Err err => ret (None, 0, Some (Errorf_w "error parsing server.json file: " err))
  | Ok serverJSON =>
  match Marshal_ServerJSON w serverJSON with
  | Err err => ret (None, 0, Some (Errorf_w "error serializing request: " err))
  | Ok jsonData =>
  let registryURL :=
    if negb (HasSuffix registryURL "/") then registryURL +:+ "/" else registryURL in
  let publishURL := registryURL +:+ "v0/publish" in
  match url_Parse w publishURL with
  | Some err => ret (None, 0, Some (Errorf_w "error creating request: " err))
  | None =>
  let req := {| Method := "POST"; URL := publishURL;
                Header := [("Content-Type", "application/json");
                           ("Authorization", "Bearer " +:+ token)];
                Body := jsonData |} in
  let* resp := client_Do w req in
  match resp with
  | TransportError err => ret (None, 0, Some (Errorf_w "error sending request: " err))
  | Response StatusCode (Err err) =>
    ret (None, StatusCode, Some (Errorf_w "error reading response: " err))
  | Response StatusCode (Ok body) =>
    if negb (StatusCode =? StatusCreated) && negb (StatusCode =? StatusOK) then
      ret (None, StatusCode,
           Some (errorString ("server returned status " +:+ itoa StatusCode
                              +:+ ": " +:+ body)))
    else
      match Unmarshal_ServerResponse w body with
      | Err err => ret (None, StatusCode, Some err)
      | Ok serverResponse => ret (Some serverResponse, StatusCode, None)
      end
  end end end end.

(** The choice of [serverFile] at the head of [PublishCommand]. *)
Definition PublishCommand_serverFile (args : list string) : string :=
  match args with
  | arg0 :: _ => if negb (HasPrefix arg0 "-") then arg0 else "server.json"
  | [] => "server.json"
  end.

(** Lines 66-101 of [PublishCommand]: the publish attempt and, on status
    422, the fallback to the validate endpoint. *)
Definition PublishCommand_run (w : World)
    (registryURL serverData token : string) (serverJSON : ServerJSON)
  : M (option error) :=
  Fprintf ("Publishing to " +:+ registryURL +:+ "..." +:+ LF);;
  let* (response, statusCode, err) := publishToRegistry w registryURL serverData token in
  match err with
  | Some err =>
    if statusCode =? StatusUnprocessableEntity then
      Fprintln "Validation failed. Checking detailed validation errors...";;
      Fprintln "";;
      let* r := validateViaAPI w registryURL serverData in
      match r with
      | Err validateErr => ret (Some (Errorf_w "publish failed: " err))
      | Ok result =>
        let* formattedErrorMsg := printValidationIssues result serverJSON in
        if negb (Valid result) then
          if negb (String.eqb formattedErrorMsg "")
          then ret (Some (errorString formattedErrorMsg))
          else ret (Some (errorString "validation failed"))
        else ret (Some (Errorf_w "publish failed: " err))
      end
    else ret (Some (Errorf_w "publish failed: " err))
  | None =>
    Fprintln "✓ Successfully published";;
    Fprintf ("✓ Server "
             +:+ match response with Some r => Name (Server r) | None => "" end
             +:+ " version "
             +:+ match response with Some r => Version (Server r) | None => "" end
             +:+ LF);;
    ret None
  end.

(** [PublishCommand], lines 18-64, then [PublishCommand_run]. *)
Definition PublishCommand (w : World) (args : list string) : M (option error) :=
  match os_ReadFile w (PublishCommand_serverFile args) with
  | Err err =>
    if os_IsNotExist err
    then ret (Some (errorString "server.json not found. Run 'mcp-publisher init' to create one"))
    else ret (Some (Errorf_w "failed to read server.json: " err))
  | Ok serverData =>
  match Unmarshal_ServerJSON w serverData with
  | Err err => ret (Some (Errorf_w "invalid server.json: " err))
  | Ok serverJSON =>
  match os_UserHomeDir w with
  | Err err => ret (Some (Errorf_w "failed to get home directory: " err))
  | Ok homeDir =>
  let tokenPath := filepath_Join w homeDir TokenFileName in
  match os_ReadFile w tokenPath with
  | Err err =>
    if os_IsNotExist err
    then ret (Some (errors_New "not authenticated. Run 'mcp-publisher login <method>' first"))
    else ret (Some (Errorf_w "failed to read token: " err))
  | Ok tokenData =>
  match Unmarshal_tokenInfo w tokenData with
  | Err err => ret (Some (Errorf_w "invalid token data: " err))
  | Ok tokenInfo =>
  let token := default "" (tokenInfo !! "token") in
  let registryURL := default "" (tokenInfo !! "registry") in
  let registryURL :=
    if String.eqb registryURL "" then DefaultRegistryURL else registryURL in
  PublishCommand_run w registryURL serverData token serverJSON
  end end end end end.

(** ** Vocabulary of the statements *)

(** A computation returns [a] whatever has been printed or sent before. *)
Definition returns {A} (m : M A) (a : A) : Prop := forall st, fst (m st) = a.

(** The requests a computation adds to the ones already sent. *)
Definition sends {A} (m : M A) (reqs : list Request) : Prop :=
  forall st, requests (snd (m st)) = requests st ++ reqs.

(** The endpoint URL in the words of the specification: a "/" is appended
    to the base exactly when the base does not end in one, then the suffix. *)
Fixpoint lastByte (s : string) : option Ascii.ascii :=
  match s with
  | EmptyString => None
  | String c EmptyString => Some c
  | String _ s' => lastByte s'
  end.

Definition endsInSlash (base : string) : bool :=
  match lastByte base with
  | Some c => Ascii.eqb c (Ascii.ascii_of_nat 47)
  | None => false
  end.

Definition spec_endpointURL (base suffix : string) : string :=
  (if endsInSlash base then base else base +:+ "/") +:+ suffix.

(** The schema issues of the specification: the three references of the
    first pass. *)
Definition isSchemaIssue (issue : ValidationIssue) : bool :=
  String.eqb (Reference issue) "schema-field-required"
  || String.eqb (Reference issue) "schema-version-deprecated"
  || String.eqb (Reference issue) "schema-version-extraction-error".

Definition firstSchemaIssue (issues : list ValidationIssue) : option ValidationIssue :=
  List.find isSchemaIssue issues.

(** The message the first pass builds for a schema issue. *)
Definition schemaMessage (issue : ValidationIssue) (serverJSON : ServerJSON) : string :=
  if String.eqb (Reference issue) "schema-field-required" then
    "$schema field is required. Expected current schema: " +:+ CurrentSchemaURL
    +:+ ". 📋 Migration checklist: " +:+ checklistURL
    +:+ " 📖 Full changelog with examples: " +:+ migrationURL
  else if String.eqb (Reference issue) "schema-version-deprecated" then
    Message issue +:+ ". deprecated schema detected: " +:+ Schema serverJSON
    +:+ ". Expected current schema: " +:+ CurrentSchemaURL
    +:+ ". Migrate to the current schema format for new servers. 📋 Migration checklist: "
    +:+ checklistURL
    +:+ " 📖 Full changelog with examples: " +:+ migrationURL
  else
    Message issue +:+ ". 📋 Migration checklist: " +:+ checklistURL
    +:+ " 📖 Full changelog with examples: " +:+ migrationURL.

(** The issues the first pass prints on standard output. *)
Definition printedByFirstPass (issue : ValidationIssue) : bool :=
  String.eqb (Reference issue) "schema-field-required"
  || String.eqb (Reference issue) "schema-version-deprecated".

(** One entry of the numbered list: severity, path and type on the first
    line, the message on the second, the reference code if there is one,
    and an empty line. *)
Definition numberedEntry (n : Z) (issue : ValidationIssue) : list string :=
  [itoa n +:+ ". [" +:+ Severity issue +:+ "] " +:+ Path issue
     +:+ " (" +:+ Type_ issue +:+ ")" +:+ LF;
   "   " +:+ Message issue +:+ LF]
  ++ (if String.eqb (Reference issue) "" then []
      else ["   Reference: " +:+ Reference issue +:+ LF])
  ++ [LF].

(** The text of an entry, its lines put together. *)
Definition entryText (n : Z) (issue : ValidationIssue) : string :=
  List.fold_right String.append "" (numberedEntry n issue).

(** The numbered list of [issues], one entry each, counting from [n]. *)
Fixpoint numberedList (n : Z) (issues : list ValidationIssue) : list string :=
  match issues with
  | [] => []
  | issue :: rest => numberedEntry n issue ++ numberedList (n + 1) rest
  end.

(** The heading of the second pass. *)
Definition secondPassHeading (result : ValidationResult) : list string :=
  ["❌ Validation failed with " +:+ itoa (Z.of_nat (length (Issues result)))
     +:+ " issue(s):" +:+ LF; LF].

(** The second pass in the words of the specification: every schema issue
    is left out of the numbered list. *)
Definition spec_secondPass (result : ValidationResult) : list string :=
  secondPassHeading result
  ++ numberedList 1 (List.filter (fun issue => negb (isSchemaIssue issue)) (Issues result)).

(** The command reached the publish attempt: the descriptor was read and
    parsed and the token store gave [token] and [registryURL]. *)
Definition PublishReady (w : World) (args : list string)
    (serverData : string) (serverJSON : ServerJSON) (token registryURL : string) : Prop :=
  os_ReadFile w (PublishCommand_serverFile args) = Ok serverData
  /\ Unmarshal_ServerJSON w serverData = Ok serverJSON
  /\ exists homeDir tokenData (tokenInfo : gmap string string),
       os_UserHomeDir w = Ok homeDir
       /\ os_ReadFile w (filepath_Join w homeDir TokenFileName) = Ok tokenData
       /\ Unmarshal_tokenInfo w tokenData = Ok tokenInfo
       /\ token = default "" (tokenInfo !! "token")
       /\ registryURL = (if String.eqb (default "" (tokenInfo !! "registry")) ""
                        then DefaultRegistryURL
                        else default "" (tokenInfo !! "registry")).

(** The two requests, as the specification describes them. *)
Definition publishRequest (registryURL token body : string) : Request :=
  {| Method := "POST";
     URL := spec_endpointURL registryURL "v0/publish";
     Header := [("Content-Type", "application/json");
                ("Authorization", "Bearer " +:+ token)];
     Body := body |}.

Definition validateRequest (registryURL body : string) : Request :=
  {| Method := "POST";
     URL := spec_endpointURL registryURL "v0/validate";
     Header := [("Content-Type", "application/json")];
     Body := body |}.

(** The publish attempt was answered with [statusCode]: the request could
    be built and the registry sent a response. *)
Definition PublishAnswered (w : World) (registryURL serverData token : string)
    (statusCode : Z) : Prop :=
  exists serverJSON body answer,
    Unmarshal_ServerJSON w serverData = Ok serverJSON
    /\ Marshal_ServerJSON w serverJSON = Ok body
    /\ url_Parse w (spec_endpointURL registryURL "v0/publish") = None
    /\ http_Do w (publishRequest registryURL token body) = Response statusCode answer.

(** The token store gives no registry URL: the file is absent or
    unreadable, is not the JSON of a string map, or has no or an empty
    "registry" entry. *)
Definition TokenStoreSilent (w : World) (homeDir : string) : Prop :=
  (exists err, os_ReadFile w (filepath_Join w homeDir TokenFileName) = Err err)
  \/ (exists tokenData err,
        os_ReadFile w (filepath_Join w homeDir TokenFileName) = Ok tokenData
        /\ Unmarshal_tokenInfo w tokenData = Err err)
  \/ (exists tokenData (tokenInfo : gmap string string),
        os_ReadFile w (filepath_Join w homeDir TokenFileName) = Ok tokenData
        /\ Unmarshal_tokenInfo w tokenData = Ok tokenInfo
        /\ default "" (tokenInfo !! "registry") = "").

(** The validate command reached the validate call with [registryURL]:
    no help was asked for, the descriptor was read and parsed, and the
    token store either is silent, which leaves the default URL, or records
    a registry URL that is not empty. *)
Definition ValidateReady (w : World) (args : list string)
    (serverData : string) (serverJSON : ServerJSON) (registryURL : string) : Prop :=
  exists serverFile homeDir,
    ValidateCommand_args args "server.json" = Some serverFile
    /\ os_ReadFile w serverFile = Ok serverData
    /\ Unmarshal_ServerJSON w serverData = Ok serverJSON
    /\ os_UserHomeDir w = Ok homeDir
    /\ ((TokenStoreSilent w homeDir /\ registryURL = DefaultRegistryURL)
        \/ (exists tokenData (tokenInfo : gmap string string),
              os_ReadFile w (filepath_Join w homeDir TokenFileName) = Ok tokenData
              /\ Unmarshal_tokenInfo w tokenData = Ok tokenInfo
              /\ tokenInfo !! "registry" = Some registryURL
              /\ registryURL <> "")).

(** Some argument is [--help] or [-h]. *)
Definition helpRequested (args : list string) : bool :=
  List.existsb (fun arg => String.eqb arg "--help" || String.eqb arg "-h") args.

(** The arguments that do not start with "-". *)
Definition fileArguments (args : list string) : list string :=
  List.filter (fun arg => negb (HasPrefix arg "-")) args.

(** The usage text of the validate command. *)
Definition usage : list string :=
  ["Usage: mcp-publisher validate [file]" +:+ LF;
   LF;
   "Validate a server.json file without publishing." +:+ LF;
   LF;
   "Arguments:" +:+ LF;
   "  file    Path to server.json file (default: ./server.json)" +:+ LF;
   LF;
   "The validate command performs exhaustive validation, reporting all issues at once." +:+ LF;
   "It validates JSON syntax, schema compliance, and semantic rules." +:+ LF].

(** The lines a computation adds to standard output. *)
Definition prints {A} (m : M A) (lines : list string) : Prop :=
  forall st, stdout (snd (m st)) = stdout st ++ lines.

(** The state after [out] was printed and [sent] was sent. *)
Definition after (st : State) (out : list string) (sent : list Request) : State :=
  {| stdout := stdout st ++ out; requests := requests st ++ sent |}.

(** ** Facts about strings *)

Lemma append_nil_l (b : string) : "" +:+ b = b.
Proof. reflexivity. Qed.

Lemma append_cons (x : Ascii.ascii) (a b : string) :
  String x a +:+ b = String x (a +:+ b).
Proof. reflexivity. Qed.

Lemma append_assoc (a b c : string) : (a +:+ b) +:+ c = a +:+ b +:+ c.
Proof.
  induction a as [|x a IH]; [reflexivity|].
  rewrite !append_cons. now f_equal.
Qed.

Lemma append_nil_r (a : string) : a +:+ "" = a.
Proof.
  induction a as [|x a IH]; [reflexivity|].
  rewrite append_cons. now f_equal.
Qed.

Lemma HasPrefix_append (p r : string) : HasPrefix (p +:+ r) p = true.
Proof.
  induction p as [|x p IH]; [reflexivity|].
  rewrite append_cons. cbn [HasPrefix]. now rewrite Ascii.eqb_refl.
Qed.

Lemma HasPrefix_inv (s p : string) :
  HasPrefix s p = true -> exists r, s = p +:+ r.
Proof.
  revert s; induction p as [|x p IH]; intros s H.
  - now exists s.
  - destruct s as [|y s]; cbn [HasPrefix] in H; [discriminate|].
    destruct (Ascii.eqb_spec y x) as [->|]; [|discriminate].
    destruct (IH _ H) as [r ->]. now exists r.
Qed.

Lemma Contains_unfold (s substr : string) :
  Contains s substr
  = HasPrefix s substr
    || match s with EmptyString => false | String _ s' => Contains s' substr end.
Proof. destruct s; reflexivity. Qed.

Lemma Contains_intro (pre substr post : string) :
  Contains (pre +:+ substr +:+ post) substr = true.
Proof.
  induction pre as [|x pre IH]; rewrite Contains_unfold.
  - now rewrite append_nil_l, HasPrefix_append.
  - rewrite append_cons, IH. apply orb_true_r.
Qed.

Lemma Contains_inv (s substr : string) :
  Contains s substr = true -> exists pre post, s = pre +:+ substr +:+ post.
Proof.
  induction s as [|x s IH]; rewrite Contains_unfold; intros H.
  - rewrite orb_false_r in H. destruct (HasPrefix_inv _ _ H) as [r ->].
    now exists "", r.
  - apply orb_true_iff in H as [H|H].
    + destruct (HasPrefix_inv _ _ H) as [r ->]. now exists "", r.
    + destruct (IH H) as (pre & post & ->). now exists (String x pre), post.
Qed.

Lemma Contains_append_l (a b substr : string) :
  Contains a substr = true -> Contains (a +:+ b) substr = true.
Proof.
  intros H. destruct (Contains_inv _ _ H) as (pre & post & ->).
  rewrite !append_assoc. apply Contains_intro.
Qed.

Lemma Contains_append_r (a b substr : string) :
  Contains b substr = true -> Contains (a +:+ b) substr = true.
Proof.
  intros H. destruct (Contains_inv _ _ H) as (pre & post & ->).
  rewrite <- (append_assoc a pre). apply Contains_intro.
Qed.

Lemma Contains_refl (s : string) : Contains s s = true.
Proof.
  rewrite <- (append_nil_r s) at 1. apply (Contains_intro "" s "").
Qed.

Lemma Contains_head (s post : string) : Contains (s +:+ post) s = true.
Proof. apply (Contains_intro "" s post). Qed.

(** The byte [strings.HasSuffix] compares with a one-byte suffix is the
    last one. *)
Lemma substring_last (s : string) :
  String.substring (String.length s - 1) 1 s
  = match lastByte s with Some c => String c "" | None => "" end.
Proof.
  induction s as [|x s IH]; [reflexivity|].
  destruct s as [|y s]; [reflexivity|].
  replace (String.length (String x (String y s)) - 1)%nat
    with (S (String.length (String y s) - 1))
    by (cbn [String.length]; lia).
  cbn [String.substring lastByte]. cbn [String.substring lastByte] in IH.
  exact IH.
Qed.

Lemma lastByte_cons (x : Ascii.ascii) (s : string) :
  exists c, lastByte (String x s) = Some c.
Proof.
  revert x; induction s as [|y s IH]; intros x; [now exists x|].
  destruct (IH y) as [c Hc]. exists c. exact Hc.
Qed.

Lemma HasSuffix_slash (base : string) : HasSuffix base "/" = endsInSlash base.
Proof.
  unfold HasSuffix, endsInSlash.
  change (String.length "/") with 1%nat.
  rewrite substring_last.
  destruct base as [|x s]; [reflexivity|].
  destruct (lastByte_cons x s) as [c ->].
  cbn [String.length Nat.leb andb].
  destruct (Ascii.eqb_spec c (Ascii.ascii_of_nat 47)) as [->|Hne]; [reflexivity|].
  apply String.eqb_neq. intros [= ->]. now apply Hne.
Qed.

Lemma endsInSlash_iff (base : string) :
  endsInSlash base = true <-> exists p, base = p +:+ "/".
Proof.
  unfold endsInSlash. split.
  - induction base as [|x s IH]; [discriminate|].
    destruct s as [|y s].
    + cbn [lastByte]. intros H. apply Ascii.eqb_eq in H as ->. now exists "".
    + intros H. destruct (IH H) as [p Hp]. exists (String x p).
      rewrite append_cons. now rewrite <- Hp.
  - intros [p ->]. induction p as [|x p IH]; [reflexivity|].
    rewrite append_cons. cbn [lastByte]. destruct (p +:+ "/") eqn:E; [|exact IH].
    destruct p; discriminate.
Qed.

(** ** Facts about the two passes of the formatter *)

Ltac run :=
  unfold bind, ret, Fprintln, Fprintf, client_Do; cbn [fst snd stdout requests].

(** The first pass returns the message of the first schema issue, or the
    empty string when there is none. *)
Lemma firstPass_returns issues serverJSON st :
  fst (printSchemaValidationErrors_range issues serverJSON st)
  = match firstSchemaIssue issues with
    | Some issue => schemaMessage issue serverJSON
    | None => ""
    end.
Proof.
  unfold firstSchemaIssue.
  induction issues as [|issue rest IH]; [reflexivity|].
  cbn [printSchemaValidationErrors_range List.find].
  unfold isSchemaIssue at 1.
  destruct (String.eqb (Reference issue) "schema-field-required") eqn:E1.
  { cbn [orb]. unfold schemaMessage. now rewrite E1. }
  destruct (String.eqb (Reference issue) "schema-version-deprecated") eqn:E2.
  { cbn [orb]. unfold schemaMessage. rewrite E1, E2.
    destruct (String.eqb (Severity issue) ValidationIssueSeverityWarning); reflexivity. }
  destruct (String.eqb (Reference issue) "schema-version-extraction-error") eqn:E3.
  { cbn [orb]. unfold schemaMessage. now rewrite E1, E2. }
  exact IH.
Qed.

(** The first pass sends nothing. *)
Lemma firstPass_requests issues serverJSON st :
  requests (snd (printSchemaValidationErrors_range issues serverJSON st)) = requests st.
Proof.
  induction issues as [|issue rest IH]; [reflexivity|].
  cbn [printSchemaValidationErrors_range].
  destruct (String.eqb (Reference issue) "schema-field-required"); [reflexivity|].
  destruct (String.eqb (Reference issue) "schema-version-deprecated").
  { destruct (String.eqb (Severity issue) ValidationIssueSeverityWarning); reflexivity. }
  destruct (String.eqb (Reference issue) "schema-version-extraction-error");
    [reflexivity|].
  exact IH.
Qed.

(** A schema message is never empty. *)
Lemma schemaMessage_nonempty issue serverJSON :
  schemaMessage issue serverJSON <> "".
Proof.
  unfold schemaMessage.
  assert (Hne : forall a b c : string, (a +:+ String (Ascii.ascii_of_nat 46) b) +:+ c <> "").
  { intros a b c. destruct a; discriminate. }
  destruct (String.eqb (Reference issue) "schema-field-required"); [discriminate|].
  destruct (String.eqb (Reference issue) "schema-version-deprecated");
    rewrite <- append_assoc; apply Hne.
Qed.

(** The second loop prints the numbered list of the issues the first pass
    does not print, and sends nothing. *)
Lemma secondPass_range issues n st :
  printValidationIssues_range issues n st
  = (tt, {| stdout := stdout st
                      ++ numberedList n
                           (List.filter (fun issue => negb (printedByFirstPass issue)) issues);
            requests := requests st |}).
Proof.
  revert n st; induction issues as [|issue rest IH]; intros n st.
  - cbn [printValidationIssues_range List.filter numberedList]. run.
    rewrite app_nil_r. now destruct st.
  - cbn [printValidationIssues_range List.filter]. unfold printedByFirstPass at 1.
    destruct (String.eqb (Reference issue) "schema-field-required"
              || String.eqb (Reference issue) "schema-version-deprecated").
    + cbn [negb]. apply IH.
    + cbn [negb numberedList]. unfold numberedEntry. run.
      destruct (String.eqb (Reference issue) ""); cbn [negb]; run; rewrite IH;
        cbn [stdout requests]; do 2 f_equal; rewrite <- !app_assoc; reflexivity.
Qed.

(** [printValidationIssues] is the first pass followed, for an invalid
    result, by the heading and the numbered list. *)
Lemma printValidationIssues_run result serverJSON st :
  printValidationIssues result serverJSON st
  = (fst (printSchemaValidationErrors result serverJSON st),
     if Valid result then snd (printSchemaValidationErrors result serverJSON st)
     else {| stdout := stdout (snd (printSchemaValidationErrors result serverJSON st))
                       ++ secondPassHeading result
                       ++ numberedList 1
                            (List.filter (fun issue => negb (printedByFirstPass issue))
                                         (Issues result));
             requests := requests st |}).
Proof.
  unfold printValidationIssues, bind at 1.
  pose proof (firstPass_requests (Issues result) serverJSON st) as Hreq.
  fold (printSchemaValidationErrors result serverJSON) in Hreq.
  destruct (printSchemaValidationErrors result serverJSON st) as [msg st1].
  cbn [fst snd] in *.
  destruct (Valid result); [reflexivity|].
  run. rewrite secondPass_range. cbn [stdout requests].
  unfold secondPassHeading. rewrite <- !app_assoc. now rewrite Hreq.
Qed.

Lemma printValidationIssues_returns result serverJSON st :
  fst (printValidationIssues result serverJSON st)
  = match firstSchemaIssue (Issues result) with
    | Some issue => schemaMessage issue serverJSON
    | None => ""
    end.
Proof.
  rewrite printValidationIssues_run. cbn [fst].
  apply firstPass_returns.
Qed.

Lemma printValidationIssues_requests result serverJSON st :
  requests (snd (printValidationIssues result serverJSON st)) = requests st.
Proof.
  rewrite printValidationIssues_run. cbn [snd].
  destruct (Valid result); [apply firstPass_requests | reflexivity].
Qed.

(** Every schema message carries the two documentation links. *)
Lemma schemaMessage_links issue serverJSON :
  Contains (schemaMessage issue serverJSON) "Migration checklist:" = true
  /\ Contains (schemaMessage issue serverJSON) "Full changelog with examples:" = true.
Proof.
  unfold schemaMessage.
  destruct (String.eqb (Reference issue) "schema-field-required");
    [|destruct (String.eqb (Reference issue) "schema-version-deprecated")]; split.
  - apply Contains_append_r, Contains_append_r, Contains_append_l. reflexivity.
  - do 4 apply Contains_append_r. apply Contains_append_l. reflexivity.
  - do 5 apply Contains_append_r. apply Contains_append_l. reflexivity.
  - do 7 apply Contains_append_r. apply Contains_append_l. reflexivity.
  - apply Contains_append_r, Contains_append_l. reflexivity.
  - do 3 apply Contains_append_r. apply Contains_append_l. reflexivity.
Qed.

(** But for [schema-field-required], it starts with the issue's message. *)
Lemma schemaMessage_message issue serverJSON :
  Reference issue <> "schema-field-required" ->
  Contains (schemaMessage issue serverJSON) (Message issue) = true.
Proof.
  intros Hne. unfold schemaMessage.
  apply String.eqb_neq in Hne. rewrite Hne.
  destruct (String.eqb (Reference issue) "schema-version-deprecated");
    apply Contains_head.
Qed.

Lemma firstSchemaIssue_exists issues :
  (exists issue, In issue issues /\ isSchemaIssue issue = true) ->
  exists issue, firstSchemaIssue issues = Some issue /\ isSchemaIssue issue = true.
Proof.
  intros (i & Hin & Hi). unfold firstSchemaIssue.
  destruct (List.find isSchemaIssue issues) as [issue|] eqn:E.
  - exists issue. split; [reflexivity|]. now apply List.find_some in E.
  - pose proof (List.find_none _ _ E i Hin) as Hn. congruence.
Qed.

Lemma numberedEntry_shows n issue :
  Contains (entryText n issue) (itoa n +:+ ". ") = true
  /\ Contains (entryText n issue) (Severity issue) = true
  /\ Contains (entryText n issue) (Path issue) = true
  /\ Contains (entryText n issue) (Type_ issue) = true
  /\ Contains (entryText n issue) (Message issue) = true
  /\ (Reference issue <> "" ->
      Contains (entryText n issue) ("Reference: " +:+ Reference issue) = true).
Proof.
  unfold entryText, numberedEntry. cbn [app List.fold_right].
  repeat split.
  - apply Contains_append_l.
    change (". [" +:+ ?r) with (". " +:+ "[" +:+ r).
    rewrite <- append_assoc. apply Contains_head.
  - apply Contains_append_l. do 2 apply Contains_append_r. apply Contains_head.
  - apply Contains_append_l. do 4 apply Contains_append_r. apply Contains_head.
  - apply Contains_append_l. do 6 apply Contains_append_r. apply Contains_head.
  - apply Contains_append_r, Contains_append_l, Contains_append_r, Contains_head.
  - intros Hne. apply String.eqb_neq in Hne. rewrite Hne. cbn [app List.fold_right].
    do 2 apply Contains_append_r. apply Contains_append_l.
    apply (Contains_intro "   " ("Reference: " +:+ Reference issue) LF).
Qed.

(** ** Facts about the two registry calls *)

Lemma endpoint_code (base suffix : string) :
  (if negb (HasSuffix base "/") then base +:+ "/" else base) +:+ suffix
  = spec_endpointURL base suffix.
Proof.
  unfold spec_endpointURL. rewrite HasSuffix_slash.
  now destruct (endsInSlash base).
Qed.

Ltac split_matches :=
  repeat match goal with
         | |- context [match ?x with _ => _ end] => destruct x eqn:?
         end.

(** What [validateViaAPI] returns does not depend on the state. *)
Lemma validateViaAPI_fst w registryURL serverData st st' :
  fst (validateViaAPI w registryURL serverData st)
  = fst (validateViaAPI w registryURL serverData st').
Proof. unfold validateViaAPI. run. split_matches; reflexivity. Qed.

(** It prints nothing and sends at most the validate request. *)
Lemma validateViaAPI_snd w registryURL serverData st :
  snd (validateViaAPI w registryURL serverData st) = st
  \/ exists body,
       snd (validateViaAPI w registryURL serverData st)
       = {| stdout := stdout st;
            requests := requests st ++ [validateRequest registryURL body] |}.
Proof.
  unfold validateViaAPI. rewrite endpoint_code. run.
  destruct (Unmarshal_ServerJSON w serverData) as [serverJSON|]; [|now left].
  destruct (Marshal_ServerJSON w serverJSON) as [body|]; [|now left].
  destruct (url_Parse w _); [now left|].
  right. exists body. unfold validateRequest. split_matches; reflexivity.
Qed.

(** When the request can be built, exactly that request is sent. *)
Lemma validateViaAPI_sends w registryURL serverData serverJSON body :
  Unmarshal_ServerJSON w serverData = Ok serverJSON ->
  Marshal_ServerJSON w serverJSON = Ok body ->
  url_Parse w (spec_endpointURL registryURL "v0/validate") = None ->
  sends (validateViaAPI w registryURL serverData) [validateRequest registryURL body].
Proof.
  intros Hu Hm Hp st. unfold validateViaAPI. rewrite endpoint_code, Hu, Hm, Hp. run.
  unfold validateRequest. split_matches; reflexivity.
Qed.

(** A result can only come from a response. *)
Lemma validateViaAPI_Ok_sends w registryURL serverData result :
  returns (validateViaAPI w registryURL serverData) (Ok result) ->
  exists body, sends (validateViaAPI w registryURL serverData)
                     [validateRequest registryURL body].
Proof.
  intros Hr.
  pose proof (Hr {| stdout := []; requests := [] |}) as H0.
  unfold validateViaAPI in H0. rewrite endpoint_code in H0.
  destruct (Unmarshal_ServerJSON w serverData) as [serverJSON|] eqn:Hu;
    [|discriminate].
  destruct (Marshal_ServerJSON w serverJSON) as [body|] eqn:Hm; [|discriminate].
  destruct (url_Parse w _) eqn:Hp; [discriminate|].
  exists body. now apply (validateViaAPI_sends _ _ _ serverJSON).
Qed.

Lemma publishToRegistry_fst w registryURL serverData token st st' :
  fst (publishToRegistry w registryURL serverData token st)
  = fst (publishToRegistry w registryURL serverData token st').
Proof. unfold publishToRegistry. run. split_matches; reflexivity. Qed.

Lemma publishToRegistry_snd w registryURL serverData token st :
  snd (publishToRegistry w registryURL serverData token st) = st
  \/ exists body,
       snd (publishToRegistry w registryURL serverData token st)
       = {| stdout := stdout st;
            requests := requests st ++ [publishRequest registryURL token body] |}.
Proof.
  unfold publishToRegistry. rewrite endpoint_code. run.
  destruct (Unmarshal_ServerJSON w serverData) as [serverJSON|]; [|now left].
  destruct (Marshal_ServerJSON w serverJSON) as [body|]; [|now left].
  destruct (url_Parse w _); [now left|].
  right. exists body. unfold publishRequest. split_matches; reflexivity.
Qed.

(** An answered publish attempt is one request, and its status comes back
    with the function's result. *)
Lemma publishToRegistry_answered w registryURL serverData token statusCode :
  PublishAnswered w registryURL serverData token statusCode ->
  exists body response err,
    (forall st,
        publishToRegistry w registryURL serverData token st
        = ((response, statusCode, err),
           {| stdout := stdout st;
              requests := requests st ++ [publishRequest registryURL token body] |}))
    /\ (statusCode <> StatusCreated -> statusCode <> StatusOK -> err <> None).
Proof.
  intros (serverJSON & body & answer & Hu & Hm & Hp & Hd).
  exists body.
  unfold publishToRegistry. rewrite endpoint_code, Hu, Hm, Hp.
  fold (publishRequest registryURL token body). run. rewrite Hd.
  destruct answer as [text|err].
  - destruct (negb (statusCode =? StatusCreated) && negb (statusCode =? StatusOK)) eqn:E.
    + eexists _, _. split; [intros st; reflexivity|]. discriminate.
    + destruct (Unmarshal_ServerResponse w text); eexists _, _;
        (split; [intros st; reflexivity|]); intros H1 H2;
        apply Z.eqb_neq in H1, H2; rewrite H1, H2 in E; discriminate.
  - eexists _, _. split; [intros st; reflexivity|]. discriminate.
Qed.

Lemma publishToRegistry_sends w registryURL serverData token serverJSON body :
  Unmarshal_ServerJSON w serverData = Ok serverJSON ->
  Marshal_ServerJSON w serverJSON = Ok body ->
  url_Parse w (spec_endpointURL registryURL "v0/publish") = None ->
  sends (publishToRegistry w registryURL serverData token)
        [publishRequest registryURL token body].
Proof.
  intros Hu Hm Hp st. unfold publishToRegistry. rewrite endpoint_code, Hu, Hm, Hp. run.
  unfold publishRequest. split_matches; reflexivity.
Qed.

(** ** Facts about the commands *)

Lemma PublishCommand_ready w args serverData serverJSON token registryURL :
  PublishReady w args serverData serverJSON token registryURL ->
  PublishCommand w args = PublishCommand_run w registryURL serverData token serverJSON.
Proof.
  intros (Hf & Hu & homeDir & tokenData & tokenInfo & Hh & Ht & Hi & -> & ->).
  unfold PublishCommand. now rewrite Hf, Hu, Hh, Ht, Hi.
Qed.

(** After a 422 the command prints two lines and asks the validate
    endpoint; what it returns is decided by the answer. *)
Lemma PublishCommand_run_422 w registryURL serverData token serverJSON :
  PublishAnswered w registryURL serverData token StatusUnprocessableEntity ->
  exists body response err,
    returns (publishToRegistry w registryURL serverData token)
            (response, StatusUnprocessableEntity, Some err)
    /\ forall st,
        PublishCommand_run w registryURL serverData token serverJSON st
        = let st2 :=
            {| stdout := stdout st
                         ++ ["Publishing to " +:+ registryURL +:+ "..." +:+ LF;
                             "Validation failed. Checking detailed validation errors..." +:+ LF;
                             LF];
               requests := requests st ++ [publishRequest registryURL token body] |} in
          match fst (validateViaAPI w registryURL serverData st2) with
          | Err _ =>
            (Some (Errorf_w "publish failed: " err),
             snd (validateViaAPI w registryURL serverData st2))
          | Ok result =>
            (if negb (Valid result) then
               if negb (String.eqb
                          (fst (printValidationIssues result serverJSON
                                  (snd (validateViaAPI w registryURL serverData st2))))
                          "")
               then Some (errorString
                            (fst (printValidationIssues result serverJSON
                                    (snd (validateViaAPI w registryURL serverData st2)))))
               else Some (errorString "validation failed")
             else Some (Errorf_w "publish failed: " err),
             snd (printValidationIssues result serverJSON
                    (snd (validateViaAPI w registryURL serverData st2))))
          end.
Proof.
  intros Ha.
  destruct (publishToRegistry_answered _ _ _ _ _ Ha) as (body & response & err & Hrun & Herr).
  destruct err as [err|]; [|now elim Herr].
  exists body, response, err. split.
  { intros st. now rewrite Hrun. }
  intros st. unfold PublishCommand_run. run. rewrite Hrun.
  cbn [Z.eqb StatusUnprocessableEntity Pos.eqb stdout requests].
  rewrite <- !app_assoc. cbn [app].
  change ("" +:+ LF) with LF.
  destruct (validateViaAPI w registryURL serverData _) as [[result|verr] st3];
    cbn [fst snd]; [|reflexivity].
  destruct (printValidationIssues result serverJSON st3) as [msg st4]; cbn [fst snd].
  destruct (Valid result); cbn [negb]; [reflexivity|].
  destruct (String.eqb msg ""); reflexivity.
Qed.

Lemma ValidateCommand_run_sends w registryURL serverData serverJSON body :
  Unmarshal_ServerJSON w serverData = Ok serverJSON ->
  Marshal_ServerJSON w serverJSON = Ok body ->
  url_Parse w (spec_endpointURL registryURL "v0/validate") = None ->
  sends (ValidateCommand_run w registryURL serverData serverJSON)
        [validateRequest registryURL body].
Proof.
  intros Hu Hm Hp st. unfold ValidateCommand_run. run.
  pose proof (validateViaAPI_sends _ _ _ _ _ Hu Hm Hp
                {| stdout := stdout st ++ ["Validating against " +:+ registryURL +:+ "..." +:+ LF];
                   requests := requests st |}) as Hs.
  destruct (validateViaAPI w registryURL serverData _) as [[result|verr] st1];
    cbn [fst snd requests] in *; [|exact Hs].
  pose proof (printValidationIssues_requests result serverJSON st1) as Hq.
  destruct (printValidationIssues result serverJSON st1) as [msg st2]; cbn [snd] in Hq.
  destruct (Valid result); [|destruct (negb (String.eqb msg ""))];
    cbn [fst snd requests]; congruence.
Qed.

(** ** The formatter *)

(** C3 (amended): when the result contains a schema issue, the string the
    formatter returns contains "Migration checklist:" and "Full changelog
    with examples:", and it contains the message text of the first schema
    issue unless that issue's reference is schema-field-required, whose
    message is replaced by the fixed text "$schema field is required". *)
Theorem schema_issue_guidance result serverJSON st :
  (exists issue, In issue (Issues result) /\ isSchemaIssue issue = true) ->
  exists first,
    firstSchemaIssue (Issues result) = Some first
    /\ Contains (fst (printValidationIssues result serverJSON st))
                "Migration checklist:" = true
    /\ Contains (fst (printValidationIssues result serverJSON st))
                "Full changelog with examples:" = true
    /\ (Reference first <> "schema-field-required" ->
        Contains (fst (printValidationIssues result serverJSON st))
                 (Message first) = true)
    /\ (Reference first = "schema-field-required" ->
        Contains (fst (printValidationIssues result serverJSON st))
                 "$schema field is required" = true).
Proof.
  intros Hex. destruct (firstSchemaIssue_exists _ Hex) as (first & Hfirst & _).
  exists first. rewrite printValidationIssues_returns, Hfirst.
  destruct (schemaMessage_links first serverJSON) as [Hc Hl].
  repeat split; auto.
  - apply schemaMessage_message.
  - intros Href. unfold schemaMessage. rewrite Href.
    change (String.eqb "schema-field-required" "schema-field-required") with true.
    cbv iota.
    change ("$schema field is required. Expected current schema: " +:+ ?r)
      with ("$schema field is required" +:+ ". Expected current schema: " +:+ r).
    apply Contains_head.
Qed.

(** C5 (amended): for an invalid result the second pass prints, after its
    heading, one numbered entry for every issue whose reference is neither
    schema-field-required nor schema-version-deprecated, in order and
    counting from 1; the issues with these two references, which the first
    pass prints, are left out, and an issue with reference
    schema-version-extraction-error is listed like any other.  An entry
    shows its number, severity, path, type and message, and the reference
    code when there is one. *)
Theorem second_pass_numbered_list result serverJSON st :
  Valid result = false ->
  stdout (snd (printValidationIssues result serverJSON st))
  = stdout (snd (printSchemaValidationErrors result serverJSON st))
    ++ secondPassHeading result
    ++ numberedList 1
         (List.filter (fun issue => negb (printedByFirstPass issue)) (Issues result))
  /\ forall n issue,
      Contains (entryText n issue) (itoa n +:+ ". ") = true
      /\ Contains (entryText n issue) (Severity issue) = true
      /\ Contains (entryText n issue) (Path issue) = true
      /\ Contains (entryText n issue) (Type_ issue) = true
      /\ Contains (entryText n issue) (Message issue) = true
      /\ (Reference issue <> "" ->
          Contains (entryText n issue) ("Reference: " +:+ Reference issue) = true).
Proof.
  intros Hv. split; [|apply numberedEntry_shows].
  rewrite printValidationIssues_run, Hv. reflexivity.
Qed.

(** C6 (amended): for a result with valid == true the formatter runs the
    first pass only, and the string it returns is that of the first pass:
    empty exactly when the result contains no schema issue. *)
Theorem valid_result_first_pass_only result serverJSON st :
  Valid result = true ->
  printValidationIssues result serverJSON st
  = printSchemaValidationErrors result serverJSON st
  /\ (fst (printValidationIssues result serverJSON st) = ""
      <-> firstSchemaIssue (Issues result) = None).
Proof.
  intros Hv. split.
  - rewrite printValidationIssues_run, Hv.
    now destruct (printSchemaValidationErrors result serverJSON st).
  - rewrite printValidationIssues_returns.
    destruct (firstSchemaIssue (Issues result)) as [issue|]; split; try easy.
    intros H. now apply schemaMessage_nonempty in H.
Qed.

(** ** The registry calls *)

(** C9: the publish and the validate request go to the base URL, with a
    "/" appended exactly when the base does not end in one, followed by
    "v0/publish" and "v0/validate"; a base that ends in "/" is used as it
    is. *)
Theorem endpoint_url_normalized w registryURL serverData token serverJSON body :
  Unmarshal_ServerJSON w serverData = Ok serverJSON ->
  Marshal_ServerJSON w serverJSON = Ok body ->
  url_Parse w (spec_endpointURL registryURL "v0/publish") = None ->
  url_Parse w (spec_endpointURL registryURL "v0/validate") = None ->
  exists publishReq validateReq,
    sends (publishToRegistry w registryURL serverData token) [publishReq]
    /\ sends (validateViaAPI w registryURL serverData) [validateReq]
    /\ ((exists p, registryURL = p +:+ "/") ->
        URL publishReq = registryURL +:+ "v0/publish"
        /\ URL validateReq = registryURL +:+ "v0/validate")
    /\ (~ (exists p, registryURL = p +:+ "/") ->
        URL publishReq = registryURL +:+ "/" +:+ "v0/publish"
        /\ URL validateReq = registryURL +:+ "/" +:+ "v0/validate").
Proof.
  intros Hu Hm Hp Hv.
  exists (publishRequest registryURL token body), (validateRequest registryURL body).
  split; [now apply (publishToRegistry_sends _ _ _ _ serverJSON)|].
  split; [now apply (validateViaAPI_sends _ _ _ serverJSON)|].
  cbn [URL publishRequest validateRequest]. unfold spec_endpointURL.
  split; intros Hs.
  - apply endsInSlash_iff in Hs. now rewrite Hs.
  - destruct (endsInSlash registryURL) eqn:E.
    + elim Hs. now apply endsInSlash_iff.
    + now rewrite !append_assoc.
Qed.

(** ** The publish command *)

(** C8: when the descriptor has been read and the token file does not
    exist, the publish command returns an error whose message contains
    "not authenticated", having printed nothing and sent no request. *)
Theorem publish_not_authenticated w args serverData serverJSON homeDir err :
  os_ReadFile w (PublishCommand_serverFile args) = Ok serverData ->
  Unmarshal_ServerJSON w serverData = Ok serverJSON ->
  os_UserHomeDir w = Ok homeDir ->
  os_ReadFile w (filepath_Join w homeDir TokenFileName) = Err err ->
  os_IsNotExist err = true ->
  forall st, exists e,
    PublishCommand w args st = (Some e, st)
    /\ Contains (Error e) "not authenticated" = true.
Proof.
  intros Hf Hu Hh Ht Hn st.
  unfold PublishCommand. rewrite Hf, Hu, Hh, Ht, Hn.
  eexists. split; reflexivity.
Qed.

(** C7: when the publish attempt is answered with a status other than 422
    and fails, the command has sent the publish request and nothing else,
    and returns an error that wraps the publish error and whose message
    contains "publish failed". *)
Theorem publish_failure_other_status
    w args serverData serverJSON token registryURL statusCode response err :
  PublishReady w args serverData serverJSON token registryURL ->
  PublishAnswered w registryURL serverData token statusCode ->
  statusCode <> StatusUnprocessableEntity ->
  returns (publishToRegistry w registryURL serverData token)
          (response, statusCode, Some err) ->
  exists body e,
    returns (PublishCommand w args) (Some e)
    /\ sends (PublishCommand w args) [publishRequest registryURL token body]
    /\ Unwrap e = Some err
    /\ Error e = "publish failed: " +:+ Error err
    /\ Contains (Error e) "publish failed" = true.
Proof.
  intros Hready Ha Hne Hret.
  rewrite (PublishCommand_ready _ _ _ _ _ _ Hready).
  destruct (publishToRegistry_answered _ _ _ _ _ Ha) as (body & response' & err' & Hrun & _).
  exists body, (Errorf_w "publish failed: " err).
  assert (Hcmd : forall st,
             PublishCommand_run w registryURL serverData token serverJSON st
             = (Some (Errorf_w "publish failed: " err),
                {| stdout := stdout st ++ ["Publishing to " +:+ registryURL +:+ "..." +:+ LF];
                   requests := requests st ++ [publishRequest registryURL token body] |})).
  { intros st. unfold PublishCommand_run. run.
    pose proof (Hret {| stdout := stdout st ++ ["Publishing to " +:+ registryURL +:+ "..." +:+ LF];
                        requests := requests st |}) as Hst.
    rewrite Hrun in *. cbn [fst stdout requests] in *.
    injection Hst as -> ->.
    apply Z.eqb_neq in Hne. now rewrite Hne. }
  split; [intros st; now rewrite Hcmd|].
  split; [intros st; now rewrite Hcmd|].
  split; [reflexivity|]. split; [reflexivity|].
  apply (Contains_head "publish failed" (": " +:+ Error err)).
Qed.

(** C4: when the publish attempt is answered with 422 and the validate
    call returns an error, the command returns an error that wraps the
    publish error: its message is "publish failed: " followed by the
    publish error's message, and the validate error is no part of it. *)
Theorem publish_fallback_validate_error
    w args serverData serverJSON token registryURL validateErr :
  PublishReady w args serverData serverJSON token registryURL ->
  PublishAnswered w registryURL serverData token StatusUnprocessableEntity ->
  returns (validateViaAPI w registryURL serverData) (Err validateErr) ->
  exists response err,
    returns (publishToRegistry w registryURL serverData token)
            (response, StatusUnprocessableEntity, Some err)
    /\ returns (PublishCommand w args)
               (Some (wrapError ("publish failed: " +:+ Error err) err))
    /\ Unwrap (wrapError ("publish failed: " +:+ Error err) err) = Some err.
Proof.
  intros Hready Ha Hv.
  rewrite (PublishCommand_ready _ _ _ _ _ _ Hready).
  destruct (PublishCommand_run_422 _ _ _ _ serverJSON Ha)
    as (body & response & err & Hpub & Hrun).
  exists response, err. repeat split; [exact Hpub|].
  intros st. rewrite Hrun. cbv zeta. now rewrite Hv.
Qed.

(** C1 (amended): when the publish attempt is answered with 422 and the
    validate call returns a result with valid == true, the command returns
    the publish error wrapped as "publish failed: ..."; the generic
    "validation failed" belongs to results with valid == false for which
    the formatter returns the empty string. *)
Theorem publish_fallback_valid_result
    w args serverData serverJSON token registryURL result :
  PublishReady w args serverData serverJSON token registryURL ->
  PublishAnswered w registryURL serverData token StatusUnprocessableEntity ->
  returns (validateViaAPI w registryURL serverData) (Ok result) ->
  exists response err,
    returns (publishToRegistry w registryURL serverData token)
            (response, StatusUnprocessableEntity, Some err)
    /\ (Valid result = true ->
        returns (PublishCommand w args)
                (Some (wrapError ("publish failed: " +:+ Error err) err)))
    /\ (Valid result = false -> firstSchemaIssue (Issues result) = None ->
        returns (PublishCommand w args) (Some (errorString "validation failed"))).
Proof.
  intros Hready Ha Hv.
  rewrite (PublishCommand_ready _ _ _ _ _ _ Hready).
  destruct (PublishCommand_run_422 _ _ _ _ serverJSON Ha)
    as (body & response & err & Hpub & Hrun).
  exists response, err. repeat split; [exact Hpub| |].
  - intros Hvalid st. rewrite Hrun. cbv zeta. now rewrite Hv, Hvalid.
  - intros Hvalid Hnone st. rewrite Hrun. cbv zeta. rewrite Hv, Hvalid.
    now rewrite printValidationIssues_returns, Hnone.
Qed.

(** C2 (amended): when the publish attempt is answered with 422, the
    command sends the publish request and then the validate request, once
    each; and when the validate result has valid == false and its first
    schema issue has a reference other than schema-field-required, the
    error the command returns contains that issue's message text. *)
Theorem publish_fallback_diagnosis
    w args serverData serverJSON token registryURL :
  PublishReady w args serverData serverJSON token registryURL ->
  PublishAnswered w registryURL serverData token StatusUnprocessableEntity ->
  url_Parse w (spec_endpointURL registryURL "v0/validate") = None ->
  (exists publishBody validateBody,
      sends (PublishCommand w args)
            [publishRequest registryURL token publishBody;
             validateRequest registryURL validateBody])
  /\ forall result issue,
      returns (validateViaAPI w registryURL serverData) (Ok result) ->
      Valid result = false ->
      firstSchemaIssue (Issues result) = Some issue ->
      Reference issue <> "schema-field-required" ->
      exists e,
        returns (PublishCommand w args) (Some e)
        /\ Contains (Error e) (Message issue) = true.
Proof.
  intros Hready Ha Hp.
  rewrite (PublishCommand_ready _ _ _ _ _ _ Hready).
  destruct (PublishCommand_run_422 _ _ _ _ serverJSON Ha)
    as (body & response & err & Hpub & Hrun).
  split.
  - destruct Ha as (serverJSON' & body' & answer & Hu & Hm & _).
    exists body, body'. intros st. rewrite Hrun. cbv zeta.
    match goal with
    | |- context [validateViaAPI w registryURL serverData ?s] =>
      pose proof (validateViaAPI_sends _ _ _ _ _ Hu Hm Hp s) as Hs;
      destruct (validateViaAPI w registryURL serverData s) as [[result|verr] st3]
    end; cbn [fst snd requests] in *.
    + rewrite printValidationIssues_requests, Hs, <- app_assoc. reflexivity.
    + rewrite Hs, <- app_assoc. reflexivity.
  - intros result issue Hv Hvalid Hfirst Href.
    exists (errorString (schemaMessage issue serverJSON)). split.
    + intros st. rewrite Hrun. cbv zeta. rewrite Hv, Hvalid.
      rewrite printValidationIssues_returns, Hfirst. cbn [negb].
      pose proof (schemaMessage_nonempty issue serverJSON) as Hne.
      apply String.eqb_neq in Hne. now rewrite Hne.
    + cbn [Error]. now apply schemaMessage_message.
Qed.

(** ** The validate command *)

(** C10: once the descriptor has been read, a token file that is absent or
    unreadable, that is not the JSON of a string map, or that has no
    registry entry or an empty one makes no difference to the validate
    command but for the URL: it goes on with the default registry URL and
    sends the validate request there. *)
Theorem validate_ignores_token_store w args serverFile serverData serverJSON homeDir :
  ValidateCommand_args args "server.json" = Some serverFile ->
  os_ReadFile w serverFile = Ok serverData ->
  Unmarshal_ServerJSON w serverData = Ok serverJSON ->
  os_UserHomeDir w = Ok homeDir ->
  TokenStoreSilent w homeDir ->
  ValidateCommand w args
  = ValidateCommand_run w DefaultRegistryURL serverData serverJSON
  /\ forall body,
      Marshal_ServerJSON w serverJSON = Ok body ->
      url_Parse w (spec_endpointURL DefaultRegistryURL "v0/validate") = None ->
      sends (ValidateCommand w args) [validateRequest DefaultRegistryURL body].
Proof.
  intros Hargs Hf Hu Hh Hsilent.
  assert (Heq : ValidateCommand w args
                = ValidateCommand_run w DefaultRegistryURL serverData serverJSON).
  { unfold ValidateCommand. rewrite Hargs, Hf, Hu, Hh.
    destruct Hsilent as [[err Ht]|[(tokenData & err & Ht & Hi)|(tokenData & tokenInfo & Ht & Hi & He)]].
    - now rewrite Ht.
    - now rewrite Ht, Hi.
    - rewrite Ht, Hi. cbv zeta. now rewrite He. }
  split; [exact Heq|].
  intros body Hm Hp. rewrite Heq.
  now apply ValidateCommand_run_sends.
Qed.

(** ** More about the registry calls *)

Lemma after_nil st : after st [] [] = st.
Proof. unfold after. rewrite !app_nil_r. now destruct st. Qed.

Lemma after_after st out1 sent1 out2 sent2 :
  after (after st out1 sent1) out2 sent2 = after st (out1 ++ out2) (sent1 ++ sent2).
Proof. unfold after. cbn [stdout requests]. now rewrite !app_assoc. Qed.

(** All the ways [publishToRegistry] ends. *)
Lemma publishToRegistry_cases w registryURL serverData token st :
  exists response statusCode err sent,
    publishToRegistry w registryURL serverData token st
    = ((response, statusCode, err), after st [] sent)
    /\ ((sent = [] /\ statusCode = 0 /\ err <> None
         /\ forall serverJSON body,
             Unmarshal_ServerJSON w serverData = Ok serverJSON ->
             Marshal_ServerJSON w serverJSON = Ok body ->
             url_Parse w (spec_endpointURL registryURL "v0/publish") <> None)
        \/ exists serverJSON body,
            Unmarshal_ServerJSON w serverData = Ok serverJSON
            /\ Marshal_ServerJSON w serverJSON = Ok body
            /\ url_Parse w (spec_endpointURL registryURL "v0/publish") = None
            /\ sent = [publishRequest registryURL token body]
            /\ ((exists e, http_Do w (publishRequest registryURL token body)
                           = TransportError e
                           /\ statusCode = 0 /\ err <> None)
                \/ exists answer,
                    http_Do w (publishRequest registryURL token body)
                    = Response statusCode answer
                    /\ (err = None ->
                        (statusCode = StatusOK \/ statusCode = StatusCreated)
                        /\ exists text accepted,
                            answer = Ok text
                            /\ Unmarshal_ServerResponse w text = Ok accepted
                            /\ response = Some accepted))).
Proof.
  unfold publishToRegistry. rewrite endpoint_code.
  destruct (Unmarshal_ServerJSON w serverData) as [serverJSON|e] eqn:Hu.
  2:{ eexists _, _, _, []. rewrite after_nil. split; [reflexivity|]. left.
      repeat split; try easy. }
  destruct (Marshal_ServerJSON w serverJSON) as [body|e] eqn:Hm.
  2:{ eexists _, _, _, []. rewrite after_nil. split; [reflexivity|]. left.
      repeat split; try easy; intros serverJSON' body' [= <-]; congruence. }
  destruct (url_Parse w _) as [e|] eqn:Hp.
  { eexists _, _, _, []. rewrite after_nil. split; [reflexivity|]. left.
    repeat split; try easy; intros serverJSON' body' [= <-] Hm';
      rewrite Hm in Hm'; injection Hm' as <-; congruence. }
  fold (publishRequest registryURL token body). run.
  destruct (http_Do w (publishRequest registryURL token body))
    as [e|statusCode [text|e]] eqn:Hd.
  - eexists _, _, _, [_]. split; [unfold after; rewrite app_nil_r; reflexivity|].
    right. exists serverJSON, body. repeat split; try easy. left. now exists e.
  - destruct (negb (statusCode =? StatusCreated) && negb (statusCode =? StatusOK)) eqn:E.
    + eexists _, _, _, [_]. split; [unfold after; rewrite app_nil_r; reflexivity|].
      right. exists serverJSON, body. repeat split; try easy.
      right. eexists. split; [exact Hd|]. discriminate.
    + destruct (Unmarshal_ServerResponse w text) as [accepted|e] eqn:Hr;
        (eexists _, _, _, [_]; split; [unfold after; rewrite app_nil_r; reflexivity|]);
        right; exists serverJSON, body; repeat split; try easy;
        right; eexists; (split; [exact Hd|]); [|discriminate].
      intros _. split.
      * apply andb_false_iff in E as [E|E]; apply negb_false_iff, Z.eqb_eq in E; auto.
      * now exists text, accepted.
  - eexists _, _, _, [_]. split; [unfold after; rewrite app_nil_r; reflexivity|].
    right. exists serverJSON, body. repeat split; try easy.
    right. eexists. split; [exact Hd|]. discriminate.
Qed.

(** All the ways [validateViaAPI] ends. *)
Lemma validateViaAPI_cases w registryURL serverData st :
  exists r sent,
    validateViaAPI w registryURL serverData st = (r, after st [] sent)
    /\ ((sent = [] /\ exists e, r = Err e)
        \/ exists serverJSON body,
            Unmarshal_ServerJSON w serverData = Ok serverJSON
            /\ Marshal_ServerJSON w serverJSON = Ok body
            /\ url_Parse w (spec_endpointURL registryURL "v0/validate") = None
            /\ sent = [validateRequest registryURL body]
            /\ forall result,
                r = Ok result ->
                exists text,
                  http_Do w (validateRequest registryURL body)
                  = Response StatusOK (Ok text)
                  /\ Unmarshal_ValidationResult w text = Ok result).
Proof.
  unfold validateViaAPI. rewrite endpoint_code.
  destruct (Unmarshal_ServerJSON w serverData) as [serverJSON|e] eqn:Hu.
  2:{ eexists _, []. rewrite after_nil. split; [reflexivity|]. left. eauto. }
  destruct (Marshal_ServerJSON w serverJSON) as [body|e] eqn:Hm.
  2:{ eexists _, []. rewrite after_nil. split; [reflexivity|]. left. eauto. }
  destruct (url_Parse w _) as [e|] eqn:Hp.
  { eexists _, []. rewrite after_nil. split; [reflexivity|]. left. eauto. }
  fold (validateRequest registryURL body). run.
  destruct (http_Do w (validateRequest registryURL body))
    as [e|statusCode [text|e]] eqn:Hd.
  - eexists _, [_]. split; [unfold after; rewrite app_nil_r; reflexivity|].
    right. exists serverJSON, body. repeat split; try easy.
  - destruct (statusCode =? StatusOK) eqn:E; cbn [negb].
    + apply Z.eqb_eq in E as ->.
      destruct (Unmarshal_ValidationResult w text) as [result|e] eqn:Hr;
        (eexists _, [_]; split; [unfold after; rewrite app_nil_r; reflexivity|]);
        right; exists serverJSON, body; repeat split; try easy.
      intros result' [= <-]. now exists text.
    + eexists _, [_]. split; [unfold after; rewrite app_nil_r; reflexivity|].
      right. exists serverJSON, body. repeat split; try easy.
  - eexists _, [_]. split; [unfold after; rewrite app_nil_r; reflexivity|].
    right. exists serverJSON, body. repeat split; try easy.
Qed.

(** X1: [publishToRegistry] returns without error only when the registry
    answered 200 or 201 with a body that decodes; the response it returns
    is that body decoded, and the publish request is the one request sent. *)
Theorem publish_call_success_means_accepted
    w registryURL serverData token st response statusCode :
  fst (publishToRegistry w registryURL serverData token st)
  = (response, statusCode, None) ->
  (statusCode = StatusOK \/ statusCode = StatusCreated)
  /\ exists body text accepted,
      http_Do w (publishRequest registryURL token body) = Response statusCode (Ok text)
      /\ Unmarshal_ServerResponse w text = Ok accepted
      /\ response = Some accepted
      /\ requests (snd (publishToRegistry w registryURL serverData token st))
         = requests st ++ [publishRequest registryURL token body].
Proof.
  intros H.
  destruct (publishToRegistry_cases w registryURL serverData token st)
    as (response' & statusCode' & err & sent & Hrun & Hcases).
  rewrite Hrun in *. cbn [fst snd] in *. injection H as -> -> ->.
  destruct Hcases as [(_ & _ & Hne & _)|(serverJSON & body & _ & _ & _ & -> & Hdo)];
    [now elim Hne|].
  destruct Hdo as [(e & _ & _ & Hne)|(answer & Hd & Hok)]; [now elim Hne|].
  destruct (Hok eq_refl) as (Hstatus & text & accepted & -> & Hr & ->).
  split; [exact Hstatus|]. now exists body, text, accepted.
Qed.

(** X2: the status code [publishToRegistry] returns is the registry's: a
    status other than 0 comes with a response of that status to the publish
    request, which was sent. *)
Theorem publish_call_status_is_the_response
    w registryURL serverData token st response statusCode err :
  fst (publishToRegistry w registryURL serverData token st)
  = (response, statusCode, err) ->
  statusCode <> 0 ->
  exists body answer,
    http_Do w (publishRequest registryURL token body) = Response statusCode answer
    /\ requests (snd (publishToRegistry w registryURL serverData token st))
       = requests st ++ [publishRequest registryURL token body].
Proof.
  intros H Hne.
  destruct (publishToRegistry_cases w registryURL serverData token st)
    as (response' & statusCode' & err' & sent & Hrun & Hcases).
  rewrite Hrun in *. cbn [fst snd] in *. injection H as -> -> ->.
  destruct Hcases as [(_ & H0 & _)|(serverJSON & body & _ & _ & _ & -> & Hdo)];
    [now elim Hne|].
  destruct Hdo as [(e & _ & H0 & _)|(answer & Hd & _)]; [now elim Hne|].
  now exists body, answer.
Qed.

(** X3: a status other than 200 and 201, 204 and the other 2xx included, is
    an error of [publishToRegistry]; the error message holds the status in
    decimal and the response body as it came. *)
Theorem publish_call_rejection
    w registryURL serverData token serverJSON body statusCode text :
  Unmarshal_ServerJSON w serverData = Ok serverJSON ->
  Marshal_ServerJSON w serverJSON = Ok body ->
  url_Parse w (spec_endpointURL registryURL "v0/publish") = None ->
  http_Do w (publishRequest registryURL token body) = Response statusCode (Ok text) ->
  statusCode <> StatusOK ->
  statusCode <> StatusCreated ->
  exists err,
    returns (publishToRegistry w registryURL serverData token)
            (None, statusCode, Some err)
    /\ Error err = "server returned status " +:+ itoa statusCode +:+ ": " +:+ text
    /\ Contains (Error err) (itoa statusCode) = true
    /\ Contains (Error err) text = true
    /\ Unwrap err = None.
Proof.
  intros Hu Hm Hp Hd H200 H201.
  exists (errorString ("server returned status " +:+ itoa statusCode +:+ ": " +:+ text)).
  split.
  - intros st. unfold publishToRegistry. rewrite endpoint_code, Hu, Hm, Hp.
    fold (publishRequest registryURL token body). run. rewrite Hd.
    apply Z.eqb_neq in H200, H201. now rewrite H200, H201.
  - cbn [Error Unwrap]. repeat split.
    + apply Contains_append_r, Contains_head.
    + do 3 apply Contains_append_r. apply Contains_refl.
Qed.

(** X4: [validateViaAPI] returns a result exactly when the request could be
    built, the registry answered 200 and the body decodes to that result. *)
Theorem validate_call_result_iff w registryURL serverData result :
  returns (validateViaAPI w registryURL serverData) (Ok result)
  <-> exists serverJSON body text,
      Unmarshal_ServerJSON w serverData = Ok serverJSON
      /\ Marshal_ServerJSON w serverJSON = Ok body
      /\ url_Parse w (spec_endpointURL registryURL "v0/validate") = None
      /\ http_Do w (validateRequest registryURL body) = Response StatusOK (Ok text)
      /\ Unmarshal_ValidationResult w text = Ok result.
Proof.
  split.
  - intros Hr. pose proof (Hr {| stdout := []; requests := [] |}) as H0.
    destruct (validateViaAPI_cases w registryURL serverData {| stdout := []; requests := [] |})
      as (r & sent & Hrun & Hcases).
    rewrite Hrun in H0. cbn [fst] in H0. subst r.
    destruct Hcases as [(_ & e & He)|(serverJSON & body & Hu & Hm & Hp & _ & Hok)];
      [discriminate|].
    destruct (Hok result eq_refl) as (text & Hd & Hv).
    now exists serverJSON, body, text.
  - intros (serverJSON & body & text & Hu & Hm & Hp & Hd & Hv) st.
    unfold validateViaAPI. rewrite endpoint_code, Hu, Hm, Hp.
    fold (validateRequest registryURL body). run. now rewrite Hd, Hv.
Qed.

(** X5: a "/" at the end of the registry URL makes no difference: for a
    base that does not end in "/", both calls behave with the base as they
    do with the base followed by "/". *)
Theorem trailing_slash_irrelevant w registryURL serverData token :
  ~ (exists p, registryURL = p +:+ "/") ->
  publishToRegistry w (registryURL +:+ "/") serverData token
  = publishToRegistry w registryURL serverData token
  /\ validateViaAPI w (registryURL +:+ "/") serverData
     = validateViaAPI w registryURL serverData.
Proof.
  intros Hno.
  assert (H1 : HasSuffix registryURL "/" = false).
  { rewrite HasSuffix_slash. destruct (endsInSlash registryURL) eqn:E; [|reflexivity].
    elim Hno. now apply endsInSlash_iff. }
  assert (H2 : HasSuffix (registryURL +:+ "/") "/" = true).
  { rewrite HasSuffix_slash. apply endsInSlash_iff. now exists registryURL. }
  unfold publishToRegistry, validateViaAPI. now rewrite H1, H2.
Qed.

(** ** The requests of the two commands *)

Lemma ValidateCommand_ready w args serverData serverJSON registryURL :
  ValidateReady w args serverData serverJSON registryURL ->
  ValidateCommand w args = ValidateCommand_run w registryURL serverData serverJSON.
Proof.
  intros (serverFile & homeDir & Hargs & Hf & Hu & Hh & Htoken).
  unfold ValidateCommand. rewrite Hargs, Hf, Hu, Hh.
  destruct Htoken as [[Hsilent ->]|(tokenData & tokenInfo & Ht & Hi & Hr & Hne)].
  - destruct Hsilent as [[err Ht]|[(tokenData & err & Ht & Hi)|(tokenData & tokenInfo & Ht & Hi & He)]].
    + now rewrite Ht.
    + now rewrite Ht, Hi.
    + rewrite Ht, Hi. cbv zeta. now rewrite He.
  - rewrite Ht, Hi. cbv zeta. rewrite Hr. cbn [from_option id].
    apply String.eqb_neq in Hne. now rewrite Hne.
Qed.

Lemma ValidateCommand_run_eq w registryURL serverData serverJSON st :
  ValidateCommand_run w registryURL serverData serverJSON st
  = let st1 :=
      {| stdout := stdout st ++ ["Validating against " +:+ registryURL +:+ "..." +:+ LF];
         requests := requests st |} in
    match fst (validateViaAPI w registryURL serverData st1) with
    | Err err =>
      (Some (Errorf_w "validation failed: " err),
       snd (validateViaAPI w registryURL serverData st1))
    | Ok result =>
      if Valid result then
        (None,
         {| stdout :=
              stdout (snd (printValidationIssues result serverJSON
                             (snd (validateViaAPI w registryURL serverData st1))))
              ++ ["✅ server.json is valid" +:+ LF];
            requests :=
              requests (snd (printValidationIssues result serverJSON
                               (snd (validateViaAPI w registryURL serverData st1)))) |})
      else
        (Some (errorString
                 (if String.eqb
                       (fst (printValidationIssues result serverJSON
                               (snd (validateViaAPI w registryURL serverData st1))))
                       ""
                  then "validation failed"
                  else fst (printValidationIssues result serverJSON
                              (snd (validateViaAPI w registryURL serverData st1))))),
         snd (printValidationIssues result serverJSON
                (snd (validateViaAPI w registryURL serverData st1))))
    end.
Proof.
  unfold ValidateCommand_run. run.
  destruct (validateViaAPI w registryURL serverData _) as [[result|err] st2];
    cbn [fst snd]; [|reflexivity].
  destruct (printValidationIssues result serverJSON st2) as [msg st3]; cbn [fst snd].
  destruct (Valid result); [reflexivity|].
  destruct (String.eqb msg ""); reflexivity.
Qed.

Lemma ValidateCommand_run_requests w registryURL serverData serverJSON st :
  exists sent,
    requests (snd (ValidateCommand_run w registryURL serverData serverJSON st))
    = requests st ++ sent
    /\ (sent = [] \/ exists body, sent = [validateRequest registryURL body]).
Proof.
  rewrite ValidateCommand_run_eq. cbv zeta.
  match goal with
  | |- context [validateViaAPI w registryURL serverData ?s] =>
    destruct (validateViaAPI_cases w registryURL serverData s)
      as (r & sent & Hrun & Hcases); rewrite Hrun
  end.
  exists sent. cbn [fst snd]. split.
  - destruct r as [result|err]; [|reflexivity].
    destruct (Valid result); cbn [snd requests];
      now rewrite printValidationIssues_requests.
  - destruct Hcases as [[-> _]|(serverJSON' & body & _ & _ & _ & -> & _)];
      [now left | right; now exists body].
Qed.

Lemma PublishCommand_run_requests w registryURL serverData token serverJSON st :
  exists sent,
    requests (snd (PublishCommand_run w registryURL serverData token serverJSON st))
    = requests st ++ sent
    /\ ((sent = []
         /\ forall serverJSON' body,
             Unmarshal_ServerJSON w serverData = Ok serverJSON' ->
             Marshal_ServerJSON w serverJSON' = Ok body ->
             url_Parse w (spec_endpointURL registryURL "v0/publish") <> None)
        \/ exists serverJSON' body,
            Unmarshal_ServerJSON w serverData = Ok serverJSON'
            /\ Marshal_ServerJSON w serverJSON' = Ok body
            /\ (sent = [publishRequest registryURL token body]
                \/ (sent = [publishRequest registryURL token body;
                            validateRequest registryURL body]
                    /\ exists answer,
                        http_Do w (publishRequest registryURL token body)
                        = Response StatusUnprocessableEntity answer))).
Proof.
  unfold PublishCommand_run. run.
  match goal with
  | |- context [publishToRegistry w registryURL serverData token ?s] =>
    destruct (publishToRegistry_cases w registryURL serverData token s)
      as (response & statusCode & err & sent & Hrun & Hcases); rewrite Hrun
  end.
  assert (Hsimple :
            (sent = []
             /\ forall serverJSON' body,
                 Unmarshal_ServerJSON w serverData = Ok serverJSON' ->
                 Marshal_ServerJSON w serverJSON' = Ok body ->
                 url_Parse w (spec_endpointURL registryURL "v0/publish") <> None)
            \/ exists serverJSON' body,
                Unmarshal_ServerJSON w serverData = Ok serverJSON'
                /\ Marshal_ServerJSON w serverJSON' = Ok body
                /\ sent = [publishRequest registryURL token body]).
  { destruct Hcases as [(-> & _ & _ & Hno)|(serverJSON' & body & Hu & Hm & _ & -> & _)];
      [now left | right; now exists serverJSON', body]. }
  assert (Hone : (sent = []
                  /\ forall serverJSON' body,
                      Unmarshal_ServerJSON w serverData = Ok serverJSON' ->
                      Marshal_ServerJSON w serverJSON' = Ok body ->
                      url_Parse w (spec_endpointURL registryURL "v0/publish") <> None)
                 \/ exists serverJSON' body,
                     Unmarshal_ServerJSON w serverData = Ok serverJSON'
                     /\ Marshal_ServerJSON w serverJSON' = Ok body
                     /\ (sent = [publishRequest registryURL token body]
                         \/ (sent = [publishRequest registryURL token body;
                                     validateRequest registryURL body]
                             /\ exists answer,
                                 http_Do w (publishRequest registryURL token body)
                                 = Response StatusUnprocessableEntity answer))).
  { destruct Hsimple as [H|(serverJSON' & body & Hu & Hm & ->)]; [now left|].
    right. exists serverJSON', body. repeat split; try assumption. now left. }
  destruct err as [err|].
  2:{ exists sent. split; [reflexivity | exact Hone]. }
  destruct (statusCode =? StatusUnprocessableEntity) eqn:E.
  2:{ exists sent. split; [reflexivity | exact Hone]. }
  clear Hsimple Hone.
  apply Z.eqb_eq in E. subst statusCode.
  destruct Hcases as [(_ & H0 & _)|(serverJSON' & body & Hu & Hm & _ & -> & Hdo)];
    [discriminate|].
  destruct Hdo as [(e & _ & H0 & _)|(answer & Hd & _)]; [discriminate|].
  match goal with
  | |- context [validateViaAPI w registryURL serverData ?s] =>
    destruct (validateViaAPI_cases w registryURL serverData s)
      as (r & sent' & Hrun' & Hcases'); rewrite Hrun'
  end.
  exists ([publishRequest registryURL token body] ++ sent'). split.
  - destruct r as [result|verr].
    + match goal with
      | |- context [printValidationIssues ?res ?sj ?s] =>
        pose proof (printValidationIssues_requests res sj s) as Hq;
        destruct (printValidationIssues res sj s) as [msg st4]
      end.
      cbn [snd] in Hq.
      destruct (Valid result); [|destruct (negb (String.eqb msg ""))];
        cbn [negb snd]; rewrite Hq; cbn [after requests];
        rewrite <- ?app_assoc; reflexivity.
    + cbn [snd after requests]. rewrite <- ?app_assoc. reflexivity.
  - right. exists serverJSON', body. repeat split; try assumption.
    destruct Hcases' as [[-> _]|(serverJSON'' & body' & Hu' & Hm' & _ & -> & _)].
    + now left.
    + right. rewrite Hu in Hu'. injection Hu' as <-.
      rewrite Hm in Hm'. injection Hm' as <-.
      split; [reflexivity|]. now exists answer.
Qed.

(** X11: whatever the world and the arguments, the publish command sends
    nothing, or the publish request alone, or the publish request and then
    the validate request; the second is sent only after the registry
    answered the first with 422, and it goes to the same registry with the
    same body. *)
Theorem publish_requests_shape w args st :
  exists sent,
    requests (snd (PublishCommand w args st)) = requests st ++ sent
    /\ (sent = []
        \/ exists registryURL token body,
            sent = [publishRequest registryURL token body]
            \/ (sent = [publishRequest registryURL token body;
                        validateRequest registryURL body]
                /\ exists answer,
                    http_Do w (publishRequest registryURL token body)
                    = Response StatusUnprocessableEntity answer)).
Proof.
  assert (Hnone : forall e : option error,
             requests (snd (ret e st)) = requests st ++ []).
  { intros e. cbn. now rewrite app_nil_r. }
  unfold PublishCommand.
  destruct (os_ReadFile w (PublishCommand_serverFile args)) as [serverData|err].
  2:{ exists []. split; [|now left]. destruct (os_IsNotExist err); apply Hnone. }
  destruct (Unmarshal_ServerJSON w serverData) as [serverJSON|err].
  2:{ exists []. split; [apply Hnone | now left]. }
  destruct (os_UserHomeDir w) as [homeDir|err].
  2:{ exists []. split; [apply Hnone | now left]. }
  destruct (os_ReadFile w (filepath_Join w homeDir TokenFileName)) as [tokenData|err].
  2:{ exists []. split; [|now left]. destruct (os_IsNotExist err); apply Hnone. }
  destruct (Unmarshal_tokenInfo w tokenData) as [tokenInfo|err].
  2:{ exists []. split; [apply Hnone | now left]. }
  cbv zeta.
  match goal with
  | |- context [PublishCommand_run w ?url serverData ?token serverJSON st] =>
    destruct (PublishCommand_run_requests w url serverData token serverJSON st)
      as (sent & Hreq & Hshape);
    exists sent; split; [exact Hreq|];
    destruct Hshape as [[-> _]|(serverJSON' & body & _ & _ & Hb)];
      [now left | right; now exists url, token, body]
  end.
Qed.

(** X12: whatever the world and the arguments, the validate command sends
    at most one request, and that is the validate request: a POST with the
    content type as its one header, so without Authorization header and
    never to the publish endpoint. *)
Theorem validate_requests_shape w args st :
  exists sent,
    requests (snd (ValidateCommand w args st)) = requests st ++ sent
    /\ (sent = [] \/ exists registryURL body, sent = [validateRequest registryURL body])
    /\ forall req,
        In req sent ->
        Method req = "POST"
        /\ Header req = [("Content-Type", "application/json")]
        /\ exists registryURL, URL req = spec_endpointURL registryURL "v0/validate".
Proof.
  assert (Hshape :
            exists sent,
              requests (snd (ValidateCommand w args st)) = requests st ++ sent
              /\ (sent = []
                  \/ exists registryURL body, sent = [validateRequest registryURL body])).
  { assert (Hnone : forall e : option error,
               requests (snd (ret e st)) = requests st ++ []).
    { intros e. cbn. now rewrite app_nil_r. }
    unfold ValidateCommand.
    destruct (ValidateCommand_args args "server.json") as [serverFile|].
    2:{ exists []. split; [|now left]. run. now rewrite app_nil_r. }
    destruct (os_ReadFile w serverFile) as [serverData|err].
    2:{ exists []. split; [|now left]. destruct (os_IsNotExist err); apply Hnone. }
    destruct (Unmarshal_ServerJSON w serverData) as [serverJSON|err].
    2:{ exists []. split; [apply Hnone | now left]. }
    destruct (os_UserHomeDir w) as [homeDir|err].
    2:{ exists []. split; [apply Hnone | now left]. }
    cbv zeta.
    match goal with
    | |- context [ValidateCommand_run w ?url serverData serverJSON st] =>
      destruct (ValidateCommand_run_requests w url serverData serverJSON st)
        as (sent & Hreq & Hs);
      exists sent; split; [exact Hreq|];
      destruct Hs as [->|(body & ->)]; [now left | right; now exists url, body]
    end. }
  destruct Hshape as (sent & Hreq & Hs). exists sent.
  split; [exact Hreq|]. split; [exact Hs|].
  intros req Hin. destruct Hs as [->|(registryURL & body & ->)]; [contradiction|].
  destruct Hin as [<-|[]]. cbn. repeat split. now exists registryURL.
Qed.

(** ** More about the validate command *)

Lemma last_default {A} (b d d' : A) (l : list A) :
  List.last (b :: l) d = List.last (b :: l) d'.
Proof.
  revert b; induction l as [|c l IH]; intros b; [reflexivity|].
  change (List.last (c :: l) d = List.last (c :: l) d'). apply IH.
Qed.

Lemma last_cons {A} (a d : A) (l : list A) : List.last (a :: l) d = List.last l a.
Proof.
  destruct l as [|b l]; [reflexivity|].
  change (List.last (b :: l) d = List.last (b :: l) a). apply last_default.
Qed.

Lemma ValidateCommand_args_help args serverFile :
  helpRequested args = true -> ValidateCommand_args args serverFile = None.
Proof.
  revert serverFile; induction args as [|arg rest IH]; intros serverFile H;
    [discriminate|].
  cbn [helpRequested List.existsb] in H. cbn [ValidateCommand_args].
  destruct (String.eqb arg "--help" || String.eqb arg "-h"); [reflexivity|].
  destruct (negb (HasPrefix arg "-")); now apply IH.
Qed.

Lemma ValidateCommand_args_files args serverFile :
  helpRequested args = false ->
  ValidateCommand_args args serverFile
  = Some (List.last (fileArguments args) serverFile).
Proof.
  revert serverFile; induction args as [|arg rest IH]; intros serverFile H;
    [reflexivity|].
  cbn [helpRequested List.existsb] in H. cbn [ValidateCommand_args].
  destruct (String.eqb arg "--help" || String.eqb arg "-h"); [discriminate|].
  cbn [orb] in H. unfold fileArguments. cbn [List.filter].
  destruct (negb (HasPrefix arg "-")).
  - rewrite last_cons. now apply IH.
  - now apply IH.
Qed.

(** X6: when some argument is [--help] or [-h], wherever it stands, the
    validate command prints the usage text and returns without error; it
    reads no file and sends no request, whatever the world is. *)
Theorem validate_help w args :
  helpRequested args = true ->
  forall st,
    ValidateCommand w args st
    = (None, {| stdout := stdout st ++ usage; requests := requests st |}).
Proof.
  intros H st. unfold ValidateCommand.
  rewrite (ValidateCommand_args_help _ _ H). run.
  unfold usage. rewrite <- !app_assoc. reflexivity.
Qed.

(** X7: without a help flag, the file the validate command reads is the
    last argument that does not start with "-", and "server.json" when
    there is none; the arguments that start with "-" are passed over. *)
Theorem validate_reads_last_file_argument w args :
  helpRequested args = false ->
  ValidateCommand_args args "server.json"
  = Some (List.last (fileArguments args) "server.json")
  /\ forall err,
      os_ReadFile w (List.last (fileArguments args) "server.json") = Err err ->
      os_IsNotExist err = true ->
      returns (ValidateCommand w args)
              (Some (errorString (List.last (fileArguments args) "server.json"
                                  +:+ " not found, please check the file path"))).
Proof.
  intros H. split; [now apply ValidateCommand_args_files|].
  intros err Hf Hn st. unfold ValidateCommand.
  now rewrite (ValidateCommand_args_files _ _ H), Hf, Hn.
Qed.


(** ** More about the publish command *)



(** ** The outcome of the two commands *)


(** The error of a command for an invalid result: the message of the first
    schema issue, or the generic one. *)
Lemma invalid_result_error result serverJSON st :
  (if String.eqb (fst (printValidationIssues result serverJSON st)) ""
   then "validation failed"
   else fst (printValidationIssues result serverJSON st))
  = match firstSchemaIssue (Issues result) with
    | Some issue => schemaMessage issue serverJSON
    | None => "validation failed"
    end.
Proof.
  rewrite printValidationIssues_returns.
  destruct (firstSchemaIssue (Issues result)) as [issue|]; [|reflexivity].
  pose proof (schemaMessage_nonempty issue serverJSON) as Hne.
  apply String.eqb_neq in Hne. now rewrite Hne.
Qed.

(** X13: for a run that reaches the validate call and gets a result, the
    validate command returns no error exactly when the result is valid; for
    an invalid result the error is the message of the first schema issue,
    and "validation failed" when the result has no schema issue. *)
Theorem validate_outcome w args serverData serverJSON registryURL result :
  ValidateReady w args serverData serverJSON registryURL ->
  returns (validateViaAPI w registryURL serverData) (Ok result) ->
  returns (ValidateCommand w args)
          (if Valid result then None
           else Some (errorString
                        match firstSchemaIssue (Issues result) with
                        | Some issue => schemaMessage issue serverJSON
                        | None => "validation failed"
                        end)).
Proof.
  intros Hready Hv st.
  rewrite (ValidateCommand_ready _ _ _ _ _ Hready), ValidateCommand_run_eq.
  cbv zeta. rewrite Hv.
  destruct (Valid result); [reflexivity|].
  cbn [fst]. now rewrite invalid_result_error.
Qed.

(** X14: for a run that reaches the validate call, an error of the call
    (no response, a status other than 200, a body that does not decode)
    comes back wrapped as "validation failed: ...". *)
Theorem validate_call_failure w args serverData serverJSON registryURL err :
  ValidateReady w args serverData serverJSON registryURL ->
  returns (validateViaAPI w registryURL serverData) (Err err) ->
  exists e,
    returns (ValidateCommand w args) (Some e)
    /\ Unwrap e = Some err
    /\ Error e = "validation failed: " +:+ Error err.
Proof.
  intros Hready Hv. exists (Errorf_w "validation failed: " err).
  split; [|split; reflexivity].
  intros st.
  rewrite (ValidateCommand_ready _ _ _ _ _ Hready), ValidateCommand_run_eq.
  cbv zeta. now rewrite Hv.
Qed.


(** X16: when the registry answers the publish request with 200 or 201 and
    a body that decodes, the publish command returns without error, having
    sent that one request and printed the name and version the registry
    echoed. *)
Theorem publish_accepted
    w args serverData serverJSON token registryURL body statusCode text accepted :
  PublishReady w args serverData serverJSON token registryURL ->
  Marshal_ServerJSON w serverJSON = Ok body ->
  url_Parse w (spec_endpointURL registryURL "v0/publish") = None ->
  http_Do w (publishRequest registryURL token body) = Response statusCode (Ok text) ->
  statusCode = StatusOK \/ statusCode = StatusCreated ->
  Unmarshal_ServerResponse w text = Ok accepted ->
  forall st,
    PublishCommand w args st
    = (None,
       {| stdout := stdout st
                    ++ ["Publishing to " +:+ registryURL +:+ "..." +:+ LF;
                        "✓ Successfully published" +:+ LF;
                        "✓ Server " +:+ Name (Server accepted) +:+ " version "
                          +:+ Version (Server accepted) +:+ LF];
          requests := requests st ++ [publishRequest registryURL token body] |}).
Proof.
  intros Hready Hm Hp Hd Hstatus Hr st.
  rewrite (PublishCommand_ready _ _ _ _ _ _ Hready).
  destruct Hready as (_ & Hu & _).
  unfold PublishCommand_run, publishToRegistry.
  rewrite endpoint_code, Hu, Hm, Hp.
  fold (publishRequest registryURL token body). run. rewrite Hd.
  assert (E : negb (statusCode =? StatusCreated) && negb (statusCode =? StatusOK) = false).
  { destruct Hstatus as [-> | ->]; reflexivity. }
  rewrite E, Hr. cbn [stdout requests]. rewrite <- !app_assoc. reflexivity.
Qed.


(** X18: after a 422, an invalid result gives the publish command the very
    error the validate command returns for it. *)
Theorem publish_fallback_same_error_as_validate
    w args args' serverData serverJSON token registryURL result :
  PublishReady w args serverData serverJSON token registryURL ->
  ValidateReady w args' serverData serverJSON registryURL ->
  PublishAnswered w registryURL serverData token StatusUnprocessableEntity ->
  returns (validateViaAPI w registryURL serverData) (Ok result) ->
  Valid result = false ->
  exists e,
    returns (PublishCommand w args) (Some e)
    /\ returns (ValidateCommand w args') (Some e).
Proof.
  intros Hpub Hval Ha Hv Hinvalid.
  exists (errorString
            match firstSchemaIssue (Issues result) with
            | Some issue => schemaMessage issue serverJSON
            | None => "validation failed"
            end).
  split; intros st.
  - rewrite (PublishCommand_ready _ _ _ _ _ _ Hpub).
    destruct (PublishCommand_run_422 _ _ _ _ serverJSON Ha)
      as (body & response & err & _ & Hrun).
    rewrite Hrun. cbv zeta. rewrite Hv, Hinvalid. cbn [negb fst].
    match goal with
    | |- context [printValidationIssues result serverJSON ?s] =>
      rewrite <- (invalid_result_error result serverJSON s);
      destruct (String.eqb (fst (printValidationIssues result serverJSON s)) "")
    end; reflexivity.
  - rewrite (ValidateCommand_ready _ _ _ _ _ Hval), ValidateCommand_run_eq.
    cbv zeta. rewrite Hv, Hinvalid. cbn [fst]. now rewrite invalid_result_error.
Qed.

(** ** The registry URL and the token *)

(** X19: with a token file that has no "registry" entry or an empty one,
    the publish command publishes to the default registry; a missing
    "token" entry is sent as the empty token. *)
Theorem publish_default_registry
    w args serverData serverJSON homeDir tokenData (tokenInfo : gmap string string) body :
  os_ReadFile w (PublishCommand_serverFile args) = Ok serverData ->
  Unmarshal_ServerJSON w serverData = Ok serverJSON ->
  os_UserHomeDir w = Ok homeDir ->
  os_ReadFile w (filepath_Join w homeDir TokenFileName) = Ok tokenData ->
  Unmarshal_tokenInfo w tokenData = Ok tokenInfo ->
  default "" (tokenInfo !! "registry") = "" ->
  Marshal_ServerJSON w serverJSON = Ok body ->
  url_Parse w (spec_endpointURL DefaultRegistryURL "v0/publish") = None ->
  forall st, exists rest,
    requests (snd (PublishCommand w args st))
    = requests st
      ++ publishRequest DefaultRegistryURL (default "" (tokenInfo !! "token")) body
         :: rest.
Proof.
  intros Hf Hu Hh Ht Hi He Hm Hp st.
  unfold PublishCommand. rewrite Hf, Hu, Hh, Ht, Hi. cbv zeta. rewrite He.
  change (String.eqb "" "") with true. cbv iota.
  set (token := default "" (tokenInfo !! "token")).
  destruct (PublishCommand_run_requests w DefaultRegistryURL serverData token serverJSON st)
    as (sent & Hreq & Hshape).
  rewrite Hreq.
  destruct Hshape as [[_ Hno]|(serverJSON' & body' & Hu' & Hm' & Hsent)].
  - now elim (Hno _ _ Hu Hm).
  - rewrite Hu in Hu'. injection Hu' as <-. rewrite Hm in Hm'. injection Hm' as <-.
    destruct Hsent as [->|[-> _]]; eexists; reflexivity.
Qed.

(** X20: with a token file that records a registry URL, the validate
    command sends the validate request to that registry and not to the
    default one. *)
Theorem validate_stored_registry
    w args serverFile serverData serverJSON homeDir tokenData
    (tokenInfo : gmap string string) registryURL body :
  ValidateCommand_args args "server.json" = Some serverFile ->
  os_ReadFile w serverFile = Ok serverData ->
  Unmarshal_ServerJSON w serverData = Ok serverJSON ->
  os_UserHomeDir w = Ok homeDir ->
  os_ReadFile w (filepath_Join w homeDir TokenFileName) = Ok tokenData ->
  Unmarshal_tokenInfo w tokenData = Ok tokenInfo ->
  tokenInfo !! "registry" = Some registryURL ->
  registryURL <> "" ->
  Marshal_ServerJSON w serverJSON = Ok body ->
  url_Parse w (spec_endpointURL registryURL "v0/validate") = None ->
  sends (ValidateCommand w args) [validateRequest registryURL body].
Proof.
  intros Hargs Hf Hu Hh Ht Hi Hr Hne Hm Hp.
  assert (Hready : ValidateReady w args serverData serverJSON registryURL).
  { exists serverFile, homeDir. repeat split; try assumption.
    right. now exists tokenData, tokenInfo. }
  rewrite (ValidateCommand_ready _ _ _ _ _ Hready).
  now apply ValidateCommand_run_sends.
Qed.

(** ** More about the first pass *)

(** X21: only the first schema issue counts in the first pass: what it
    prints and returns for a result is what it prints and returns for
    that issue alone, whatever comes before or after it. *)
Theorem first_schema_issue_wins result serverJSON first st :
  firstSchemaIssue (Issues result) = Some first ->
  printSchemaValidationErrors result serverJSON st
  = printSchemaValidationErrors {| Valid := Valid result; Issues := [first] |}
                                serverJSON st.
Proof.
  unfold printSchemaValidationErrors, firstSchemaIssue. cbn [Issues].
  induction (Issues result) as [|issue rest IH]; [discriminate|].
  cbn [List.find]. unfold isSchemaIssue at 1.
  cbn [printSchemaValidationErrors_range].
  destruct (String.eqb (Reference issue) "schema-field-required") eqn:E1.
  { intros [= <-]. cbn [orb printSchemaValidationErrors_range]. now rewrite E1. }
  destruct (String.eqb (Reference issue) "schema-version-deprecated") eqn:E2.
  { intros [= <-]. cbn [orb printSchemaValidationErrors_range]. now rewrite E1, E2. }
  destruct (String.eqb (Reference issue) "schema-version-extraction-error") eqn:E3.
  { intros [= <-]. cbn [orb printSchemaValidationErrors_range]. now rewrite E1, E2, E3. }
  cbn [orb]. exact IH.
Qed.

(** X22: the first pass prints nothing when the result has no schema
    issue, for which it returns the empty string, and when the first
    schema issue has reference schema-version-extraction-error, for which
    it returns the issue's message followed by the two links. *)
Theorem first_pass_silent result serverJSON st :
  firstSchemaIssue (Issues result) = None
  \/ (exists first,
        firstSchemaIssue (Issues result) = Some first
        /\ Reference first = "schema-version-extraction-error") ->
  printSchemaValidationErrors result serverJSON st
  = (match firstSchemaIssue (Issues result) with
     | Some first =>
       Message first +:+ ". 📋 Migration checklist: " +:+ checklistURL
       +:+ " 📖 Full changelog with examples: " +:+ migrationURL
     | None => ""
     end, st).
Proof.
  unfold printSchemaValidationErrors, firstSchemaIssue.
  induction (Issues result) as [|issue rest IH]; [reflexivity|].
  cbn [List.find]. unfold isSchemaIssue at 1 3 5.
  cbn [printSchemaValidationErrors_range].
  destruct (String.eqb (Reference issue) "schema-field-required") eqn:E1.
  { cbn [orb]. intros [H|(first & [= <-] & Href)]; [discriminate|].
    rewrite Href in E1. discriminate. }
  destruct (String.eqb (Reference issue) "schema-version-deprecated") eqn:E2.
  { cbn [orb]. intros [H|(first & [= <-] & Href)]; [discriminate|].
    rewrite Href in E2. discriminate. }
  destruct (String.eqb (Reference issue) "schema-version-extraction-error") eqn:E3.
  { reflexivity. }
  cbn [orb]. exact IH.
Qed.

End Commands.

(** ** The statements on the mock registry *)

Local Abbreviation publish :=
  (PublishCommand Mock.DefaultRegistryURL Mock.TokenFileName
                  Mock.CurrentSchemaURL Mock.SeverityWarning).
Local Abbreviation validate :=
  (ValidateCommand Mock.DefaultRegistryURL Mock.TokenFileName
                   Mock.CurrentSchemaURL Mock.SeverityWarning).
Local Abbreviation format :=
  (printValidationIssues Mock.CurrentSchemaURL Mock.SeverityWarning).
Local Abbreviation firstPass :=
  (printSchemaValidationErrors Mock.CurrentSchemaURL Mock.SeverityWarning).

Lemma Mock_ready validation publishHandler validateHandler :
  PublishReady Mock.DefaultRegistryURL Mock.TokenFileName
    (Mock.world (Ok Mock.tokenData) (Ok Mock.testToken)
                publishHandler validateHandler validation)
    [] Mock.serverData Mock.serverJSON "test-token" Mock.serverURL.
Proof.
  split; [reflexivity|]. split; [reflexivity|].
  exists "/home/user", Mock.tokenData, Mock.testToken.
  repeat split; reflexivity.
Defined.

Lemma Mock_answered validation validateHandler statusCode answer :
  PublishAnswered
    (Mock.world (Ok Mock.tokenData) (Ok Mock.testToken)
                (Response statusCode answer) validateHandler validation)
    Mock.serverURL Mock.serverData "test-token" statusCode.
Proof.
  exists Mock.serverJSON, Mock.serverData, answer.
  repeat split; reflexivity.
Defined.

(** The multiple-issue test: the error is the fixed text of
    schema-field-required and holds the message of neither issue. *)
Lemma publish_fallback_first_issue_absent :
  let validation :=
    {| Valid := false; Issues := [Mock.versionRangeIssue; Mock.nameRequiredIssue] |} in
  exists e,
    fst (publish (Mock.rejected (Ok validation)) [] Mock.initial) = Some e
    /\ List.map URL (requests (snd (publish (Mock.rejected (Ok validation)) [] Mock.initial)))
       = ["http://127.0.0.1:8080/v0/publish"; "http://127.0.0.1:8080/v0/validate"]
    /\ Contains (Error e) (Message Mock.versionRangeIssue) = false
    /\ Contains (Error e) "$schema field is required" = true.
Proof. eexists. repeat split; vm_compute; reflexivity. Qed.

(** A 422 followed by a result with valid == true: the error is the
    wrapped publish error, not "validation failed". *)
Lemma publish_fallback_valid_not_generic :
  let w := Mock.rejected (Ok {| Valid := true; Issues := [] |}) in
  fst (validateViaAPI w Mock.serverURL Mock.serverData Mock.initial)
  = Ok {| Valid := true; Issues := [] |}
  /\ exists e,
      fst (publish w [] Mock.initial) = Some e
      /\ Error e = "publish failed: server returned status 422: {message: Failed to publish server, invalid schema: call /validate for details}"
      /\ Contains (Error e) "validation failed" = false.
Proof. split; [reflexivity|]. eexists. repeat split; vm_compute; reflexivity. Qed.

(** A schema-field-required issue whose message is not the fixed text. *)
Lemma schema_field_required_message_dropped :
  let result := {| Valid := false; Issues := [Mock.nameRequiredIssue] |} in
  isSchemaIssue Mock.nameRequiredIssue = true
  /\ In Mock.nameRequiredIssue (Issues result)
  /\ Contains (fst (format result Mock.serverJSON Mock.initial))
               (Message Mock.nameRequiredIssue) = false.
Proof.
  split; [reflexivity|]. split; [now left|]. vm_compute. reflexivity.
Qed.

(** A schema-version-extraction-error issue is in the returned message and
    in the numbered list as well. *)
Lemma extraction_error_listed :
  let result := {| Valid := false; Issues := [Mock.extractionIssue] |} in
  isSchemaIssue Mock.extractionIssue = true
  /\ Contains (fst (format result Mock.serverJSON Mock.initial))
              (Message Mock.extractionIssue) = true
  /\ stdout (snd (format result Mock.serverJSON Mock.initial))
     = secondPassHeading result ++ numberedEntry 1 Mock.extractionIssue
  /\ stdout (snd (format result Mock.serverJSON Mock.initial))
     <> stdout (snd (firstPass result Mock.serverJSON Mock.initial))
        ++ spec_secondPass result.
Proof.
  split; [reflexivity|]. split; [vm_compute; reflexivity|].
  split; [vm_compute; reflexivity|]. vm_compute. discriminate.
Qed.

(** A valid result with a deprecation warning: the returned string is not
    empty. *)
Lemma valid_result_message_not_empty :
  let result := {| Valid := true; Issues := [Mock.deprecatedIssue] |} in
  Valid result = true
  /\ fst (format result Mock.serverJSON Mock.initial) <> ""
  /\ Contains (fst (format result Mock.serverJSON Mock.initial))
              (Message Mock.deprecatedIssue) = true.
Proof.
  split; [reflexivity|]. split; [vm_compute; discriminate|].
  vm_compute. reflexivity.
Qed.

Lemma schema_issue_guidance_witness :
  let result := {| Valid := false; Issues := [Mock.versionRangeIssue; Mock.deprecatedIssue] |} in
  (exists issue, In issue (Issues result) /\ isSchemaIssue issue = true)
  /\ Contains (fst (format result Mock.serverJSON Mock.initial))
              (Message Mock.deprecatedIssue) = true.
Proof.
  intros result.
  assert (H : exists issue, In issue (Issues result) /\ isSchemaIssue issue = true).
  { exists Mock.deprecatedIssue. split; [right; now left | reflexivity]. }
  split; [exact H|].
  destruct (schema_issue_guidance Mock.CurrentSchemaURL Mock.SeverityWarning
              result Mock.serverJSON Mock.initial H)
    as (first & Hfirst & _ & _ & Hmsg & _).
  injection Hfirst as <-. apply Hmsg. discriminate.
Defined.

Lemma second_pass_numbered_list_witness :
  let result := {| Valid := false; Issues := [Mock.versionRangeIssue; Mock.deprecatedIssue] |} in
  Valid result = false
  /\ stdout (snd (format result Mock.serverJSON Mock.initial))
     = stdout (snd (firstPass result Mock.serverJSON Mock.initial))
       ++ secondPassHeading result ++ numberedEntry 1 Mock.versionRangeIssue.
Proof.
  intros result. split; [reflexivity|].
  destruct (second_pass_numbered_list Mock.CurrentSchemaURL Mock.SeverityWarning
              result Mock.serverJSON Mock.initial eq_refl) as [H _].
  rewrite H. reflexivity.
Defined.

Lemma valid_result_first_pass_only_witness :
  let result := {| Valid := true; Issues := [Mock.deprecatedIssue] |} in
  Valid result = true
  /\ format result Mock.serverJSON Mock.initial
     = firstPass result Mock.serverJSON Mock.initial.
Proof.
  intros result. split; [reflexivity|].
  apply (valid_result_first_pass_only Mock.CurrentSchemaURL Mock.SeverityWarning
           result Mock.serverJSON Mock.initial eq_refl).
Defined.

Lemma endpoint_url_normalized_witness :
  exists publishReq validateReq,
    sends (publishToRegistry Mock.refused "http://127.0.0.1:8080/" Mock.serverData "test-token")
          [publishReq]
    /\ sends (validateViaAPI Mock.refused "http://127.0.0.1:8080/" Mock.serverData)
             [validateReq]
    /\ URL publishReq = "http://127.0.0.1:8080/v0/publish"
    /\ URL validateReq = "http://127.0.0.1:8080/v0/validate".
Proof.
  destruct (endpoint_url_normalized Mock.refused "http://127.0.0.1:8080/"
              Mock.serverData "test-token" Mock.serverJSON Mock.serverData
              eq_refl eq_refl eq_refl eq_refl)
    as (publishReq & validateReq & Hp & Hv & Hslash & _).
  exists publishReq, validateReq.
  destruct Hslash as [H1 H2]; [now exists "http://127.0.0.1:8080"|].
  repeat split; assumption.
Defined.

Lemma publish_not_authenticated_witness :
  exists e,
    publish Mock.noToken [] Mock.initial = (Some e, Mock.initial)
    /\ Contains (Error e) "not authenticated" = true.
Proof.
  apply (publish_not_authenticated Mock.DefaultRegistryURL Mock.TokenFileName
           Mock.CurrentSchemaURL Mock.SeverityWarning Mock.noToken []
           Mock.serverData Mock.serverJSON "/home/user"
           (Mock.noSuchFile "/home/user/.mcp_publisher_token")
           eq_refl eq_refl eq_refl eq_refl eq_refl Mock.initial).
Defined.

Lemma publish_failure_other_status_witness :
  exists body e,
    returns (publish Mock.refused []) (Some e)
    /\ sends (publish Mock.refused [])
             [publishRequest Mock.serverURL "test-token" body]
    /\ Unwrap e = Some (errorString "server returned status 401: {message: Unauthorized}")
    /\ Error e = "publish failed: server returned status 401: {message: Unauthorized}"
    /\ Contains (Error e) "publish failed" = true.
Proof.
  apply (publish_failure_other_status Mock.DefaultRegistryURL Mock.TokenFileName
           Mock.CurrentSchemaURL Mock.SeverityWarning Mock.refused []
           Mock.serverData Mock.serverJSON "test-token" Mock.serverURL 401 None
           (errorString "server returned status 401: {message: Unauthorized}")).
  - apply Mock_ready.
  - apply Mock_answered.
  - discriminate.
  - intros st. reflexivity.
Defined.

Lemma publish_fallback_validate_error_witness :
  exists response err,
    returns (publishToRegistry Mock.validateDown Mock.serverURL Mock.serverData "test-token")
            (response, StatusUnprocessableEntity, Some err)
    /\ returns (publish Mock.validateDown [])
               (Some (wrapError ("publish failed: " +:+ Error err) err))
    /\ Unwrap (wrapError ("publish failed: " +:+ Error err) err) = Some err.
Proof.
  apply (publish_fallback_validate_error Mock.DefaultRegistryURL Mock.TokenFileName
           Mock.CurrentSchemaURL Mock.SeverityWarning Mock.validateDown []
           Mock.serverData Mock.serverJSON "test-token" Mock.serverURL
           (errorString "server returned status 500: internal error")).
  - apply Mock_ready.
  - apply Mock_answered.
  - intros st. reflexivity.
Defined.

Lemma publish_fallback_valid_result_witness :
  let w := Mock.rejected (Ok {| Valid := true; Issues := [] |}) in
  exists response err,
    returns (publishToRegistry w Mock.serverURL Mock.serverData "test-token")
            (response, StatusUnprocessableEntity, Some err)
    /\ returns (publish w []) (Some (wrapError ("publish failed: " +:+ Error err) err)).
Proof.
  intros w.
  destruct (publish_fallback_valid_result Mock.DefaultRegistryURL Mock.TokenFileName
              Mock.CurrentSchemaURL Mock.SeverityWarning w []
              Mock.serverData Mock.serverJSON "test-token" Mock.serverURL
              {| Valid := true; Issues := [] |}
              (Mock_ready _ _ _) (Mock_answered _ _ _ _) (fun st => eq_refl))
    as (response & err & Hpub & Hvalid & _).
  exists response, err. split; [exact Hpub | now apply Hvalid].
Defined.

Lemma publish_fallback_diagnosis_witness :
  let validation := {| Valid := false; Issues := [Mock.versionRangeIssue; Mock.deprecatedIssue] |} in
  let w := Mock.rejected (Ok validation) in
  (exists publishBody validateBody,
      sends (publish w [])
            [publishRequest Mock.serverURL "test-token" publishBody;
             validateRequest Mock.serverURL validateBody])
  /\ exists e,
      returns (publish w []) (Some e)
      /\ Contains (Error e) (Message Mock.deprecatedIssue) = true.
Proof.
  intros validation w.
  destruct (publish_fallback_diagnosis Mock.DefaultRegistryURL Mock.TokenFileName
              Mock.CurrentSchemaURL Mock.SeverityWarning w []
              Mock.serverData Mock.serverJSON "test-token" Mock.serverURL
              (Mock_ready _ _ _) (Mock_answered _ _ _ _) eq_refl)
    as [Hsends Hmsg].
  split; [exact Hsends|].
  apply (Hmsg validation Mock.deprecatedIssue); [intros st| | |];
    (reflexivity || discriminate).
Defined.

Lemma validate_ignores_token_store_witness :
  TokenStoreSilent Mock.TokenFileName Mock.noRegistry "/home/user"
  /\ sends (validate Mock.noRegistry [])
           [validateRequest Mock.DefaultRegistryURL Mock.serverData].
Proof.
  assert (H : TokenStoreSilent Mock.TokenFileName Mock.noRegistry "/home/user").
  { right. right. exists Mock.tokenData, (<["token" := "test-token"]> ∅).
    repeat split; reflexivity. }
  split; [exact H|].
  apply (validate_ignores_token_store Mock.DefaultRegistryURL Mock.TokenFileName
           Mock.CurrentSchemaURL Mock.SeverityWarning Mock.noRegistry []
           "server.json" Mock.serverData Mock.serverJSON "/home/user"
           eq_refl eq_refl eq_refl eq_refl H);
    reflexivity.
Defined.

(** ** More statements on the mock registry *)

Lemma Mock_validate_ready validation publishHandler validateHandler :
  ValidateReady Mock.DefaultRegistryURL Mock.TokenFileName
    (Mock.world (Ok Mock.tokenData) (Ok Mock.testToken)
                publishHandler validateHandler validation)
    [] Mock.serverData Mock.serverJSON Mock.serverURL.
Proof.
  exists "server.json", "/home/user". repeat split; try reflexivity.
  right. exists Mock.tokenData, Mock.testToken. repeat split; try reflexivity.
  discriminate.
Defined.

Lemma publish_call_success_means_accepted_witness :
  exists body text accepted,
    http_Do Mock.accepted (publishRequest Mock.serverURL "test-token" body)
    = Response 201 (Ok text)
    /\ Unmarshal_ServerResponse Mock.accepted text = Ok accepted.
Proof.
  destruct (publish_call_success_means_accepted Mock.accepted Mock.serverURL
              Mock.serverData "test-token" Mock.initial
              (Some {| Server := Mock.serverJSON |}) 201 eq_refl)
    as (_ & body & text & accepted & Hd & Hr & _).
  now exists body, text, accepted.
Defined.

Lemma publish_call_status_is_the_response_witness :
  exists body answer,
    http_Do Mock.refused (publishRequest Mock.serverURL "test-token" body)
    = Response 401 answer.
Proof.
  destruct (publish_call_status_is_the_response Mock.refused Mock.serverURL
              Mock.serverData "test-token" Mock.initial None 401
              (Some (errorString "server returned status 401: {message: Unauthorized}"))
              eq_refl)
    as (body & answer & Hd & _); [discriminate|].
  now exists body, answer.
Defined.

Lemma publish_call_rejection_witness :
  exists err,
    returns (publishToRegistry Mock.refused Mock.serverURL Mock.serverData "test-token")
            (None, 401, Some err)
    /\ Contains (Error err) "401" = true
    /\ Contains (Error err) "{message: Unauthorized}" = true.
Proof.
  destruct (publish_call_rejection Mock.refused Mock.serverURL Mock.serverData
              "test-token" Mock.serverJSON Mock.serverData 401
              "{message: Unauthorized}" eq_refl eq_refl eq_refl eq_refl)
    as (err & Hret & _ & Hstatus & Hbody & _); try discriminate.
  now exists err.
Defined.

Lemma trailing_slash_irrelevant_witness :
  validateViaAPI Mock.refused "http://127.0.0.1:8080/" Mock.serverData
  = validateViaAPI Mock.refused "http://127.0.0.1:8080" Mock.serverData.
Proof.
  apply (trailing_slash_irrelevant Mock.refused "http://127.0.0.1:8080"
           Mock.serverData "test-token").
  intros H. apply endsInSlash_iff in H. discriminate.
Defined.

Lemma validate_help_witness :
  validate Mock.noServerFile ["other.json"; "-h"] Mock.initial
  = (None, {| stdout := usage; requests := [] |}).
Proof.
  apply (validate_help Mock.DefaultRegistryURL Mock.TokenFileName
           Mock.CurrentSchemaURL Mock.SeverityWarning Mock.noServerFile
           ["other.json"; "-h"] eq_refl Mock.initial).
Defined.

Lemma validate_reads_last_file_argument_witness :
  returns (validate Mock.noServerFile ["a.json"; "-v"; "b.json"])
          (Some (errorString "b.json not found, please check the file path")).
Proof.
  destruct (validate_reads_last_file_argument Mock.DefaultRegistryURL
              Mock.TokenFileName Mock.CurrentSchemaURL Mock.SeverityWarning
              Mock.noServerFile ["a.json"; "-v"; "b.json"] eq_refl)
    as [_ H].
  apply (H (Mock.noSuchFile "b.json")); reflexivity.
Defined.




Lemma validate_outcome_witness :
  returns (validate (Mock.validated
                       (Ok {| Valid := false; Issues := [Mock.versionRangeIssue] |})) [])
          (Some (errorString "validation failed")).
Proof.
  apply (validate_outcome Mock.DefaultRegistryURL Mock.TokenFileName
           Mock.CurrentSchemaURL Mock.SeverityWarning
           (Mock.validated (Ok {| Valid := false; Issues := [Mock.versionRangeIssue] |}))
           [] Mock.serverData Mock.serverJSON Mock.serverURL
           {| Valid := false; Issues := [Mock.versionRangeIssue] |}
           (Mock_validate_ready _ _ _) (fun st => eq_refl)).
Defined.

Lemma validate_call_failure_witness :
  exists e,
    returns (validate Mock.validateDown []) (Some e)
    /\ Error e = "validation failed: server returned status 500: internal error".
Proof.
  destruct (validate_call_failure Mock.DefaultRegistryURL Mock.TokenFileName
              Mock.CurrentSchemaURL Mock.SeverityWarning Mock.validateDown []
              Mock.serverData Mock.serverJSON Mock.serverURL
              (errorString "server returned status 500: internal error")
              (Mock_validate_ready _ _ _) (fun st => eq_refl))
    as (e & Hret & _ & Hmsg).
  now exists e.
Defined.


Lemma publish_accepted_witness :
  fst (publish Mock.accepted [] Mock.initial) = None
  /\ List.map URL (requests (snd (publish Mock.accepted [] Mock.initial)))
     = ["http://127.0.0.1:8080/v0/publish"].
Proof.
  rewrite (publish_accepted Mock.DefaultRegistryURL Mock.TokenFileName
             Mock.CurrentSchemaURL Mock.SeverityWarning Mock.accepted []
             Mock.serverData Mock.serverJSON "test-token" Mock.serverURL
             Mock.serverData 201 "{server}" {| Server := Mock.serverJSON |}
             (Mock_ready _ _ _) eq_refl eq_refl eq_refl (or_intror eq_refl) eq_refl
             Mock.initial).
  split; reflexivity.
Defined.


Lemma publish_fallback_same_error_as_validate_witness :
  let w := Mock.rejected (Ok {| Valid := false; Issues := [Mock.deprecatedIssue] |}) in
  exists e,
    returns (publish w []) (Some e) /\ returns (validate w ["server.json"]) (Some e).
Proof.
  intros w.
  apply (publish_fallback_same_error_as_validate Mock.DefaultRegistryURL
           Mock.TokenFileName Mock.CurrentSchemaURL Mock.SeverityWarning w
           [] ["server.json"] Mock.serverData Mock.serverJSON "test-token"
           Mock.serverURL {| Valid := false; Issues := [Mock.deprecatedIssue] |}).
  - apply Mock_ready.
  - exists "server.json", "/home/user". repeat split; try reflexivity.
    right. exists Mock.tokenData, Mock.testToken. repeat split; try reflexivity.
    discriminate.
  - apply Mock_answered.
  - intros st. reflexivity.
  - reflexivity.
Defined.

Lemma publish_default_registry_witness :
  exists rest,
    requests (snd (publish Mock.noRegistry [] Mock.initial))
    = publishRequest Mock.DefaultRegistryURL "test-token" Mock.serverData :: rest.
Proof.
  apply (publish_default_registry Mock.DefaultRegistryURL Mock.TokenFileName
           Mock.CurrentSchemaURL Mock.SeverityWarning Mock.noRegistry []
           Mock.serverData Mock.serverJSON "/home/user" Mock.tokenData
           (<["token" := "test-token"]> ∅) Mock.serverData
           eq_refl eq_refl eq_refl eq_refl eq_refl eq_refl eq_refl eq_refl
           Mock.initial).
Defined.

Lemma validate_stored_registry_witness :
  sends (validate (Mock.validated (Ok {| Valid := true; Issues := [] |})) [])
        [validateRequest Mock.serverURL Mock.serverData].
Proof.
  apply (validate_stored_registry Mock.DefaultRegistryURL Mock.TokenFileName
           Mock.CurrentSchemaURL Mock.SeverityWarning
           (Mock.validated (Ok {| Valid := true; Issues := [] |})) []
           "server.json" Mock.serverData Mock.serverJSON "/home/user"
           Mock.tokenData Mock.testToken Mock.serverURL Mock.serverData);
    (reflexivity || discriminate).
Defined.

Lemma first_schema_issue_wins_witness :
  let result :=
    {| Valid := false;
       Issues := [Mock.versionRangeIssue; Mock.deprecatedIssue; Mock.nameRequiredIssue] |} in
  firstPass result Mock.serverJSON Mock.initial
  = firstPass {| Valid := false; Issues := [Mock.deprecatedIssue] |}
              Mock.serverJSON Mock.initial.
Proof.
  intros result.
  apply (first_schema_issue_wins Mock.CurrentSchemaURL Mock.SeverityWarning
           result Mock.serverJSON Mock.deprecatedIssue Mock.initial eq_refl).
Defined.

Lemma first_pass_silent_witness :
  let result := {| Valid := false; Issues := [Mock.extractionIssue] |} in
  snd (firstPass result Mock.serverJSON Mock.initial) = Mock.initial.
Proof.
  intros result.
  rewrite (first_pass_silent Mock.CurrentSchemaURL Mock.SeverityWarning
             result Mock.serverJSON Mock.initial
             (or_intror (ex_intro _ Mock.extractionIssue (conj eq_refl eq_refl)))).
  reflexivity.
Defined.
